(** * event-switches.c: the switch event provider of the Mode Control Entity

    A shallow embedding of [event-switches.c] and the properties of its
    payload translators, of the proximity and camera-focus interlocks and of
    the start-up routine.

    Conventions of the embedding:
    - a C string is a [string] whose terminating NUL is implicit; an
      embedded ["000"] character ends it early, as it would in memory;
    - [gboolean] is [bool]; [gconstpointer] handles are [option N] with
      [None] for [NULL];
    - the file-scope statics are the fields of [statics];
    - calls into the other modules of the daemon (datapipes, I/O monitors,
      file helpers) are recorded, in program order, in a list of [event]s;
      what those calls return is read from an [environment]. *)

From Stdlib Require Import ZArith List Bool Ascii String Lia.
Import ListNotations.

Local Open Scope Z_scope.
Local Open Scope list_scope.

(** ** The C library functions used by the callbacks *)

Module Libc.

Definition NUL : ascii := Ascii.zero.

(** The character a [char *] points at: the terminator once the text is
    exhausted. *)
Definition deref (s : string) : ascii :=
  match s with
  | EmptyString => NUL
  | String c _ => c
  end.

(** Pointer increment; the model never steps past the terminator. *)
Definition next (s : string) : string :=
  match s with
  | EmptyString => EmptyString
  | String _ r => r
  end.

Definition uchar (c : ascii) : Z := Z.of_N (N_of_ascii c).

Fixpoint strlen (s : string) : nat :=
  match s with
  | EmptyString => O
  | String c r => if Ascii.eqb c NUL then O else S (strlen r)
  end.

(** [strncmp]: compares at most [n] characters as [unsigned char], and
    stops after a NUL. *)
Fixpoint strncmp (s1 s2 : string) (n : nat) : Z :=
  match n with
  | O => 0
  | S m =>
      let c1 := deref s1 in
      let c2 := deref s2 in
      if Ascii.eqb c1 c2
      then if Ascii.eqb c1 NUL then 0 else strncmp (next s1) (next s2) m
      else uchar c1 - uchar c2
  end.

(** A string literal of the C source has no NUL before its end. *)
Definition nul_free (s : string) : Prop := strlen s = String.length s.

(** [begins_with lit s]: [s] is [lit] followed by anything, possibly
    nothing. *)
Definition begins_with (lit s : string) : Prop :=
  exists rest, s = String.append lit rest.

End Libc.

(** ** Declarations the file takes from its headers *)

(** The enumerations whose constants the translators publish.  Only the
    constants used by [event-switches.c] are listed. *)
Inductive cover_state_t : Set := COVER_CLOSED | COVER_OPEN.
Inductive camera_button_state_t : Set :=
  CAMERA_BUTTON_UNPRESSED | CAMERA_BUTTON_LAUNCH.
Inductive usb_cable_state_t : Set :=
  USB_CABLE_DISCONNECTED | USB_CABLE_CONNECTED.

(** The values the interlocks consume arrive as [gint]s packed in a
    pointer, so any integer can be delivered. *)
Definition call_state_t := Z.
Definition alarm_ui_state_t := Z.
Definition submode_t := Z.

(** Numeric constants and string literals of [mce.h] and
    [event-switches.h].  The headers are not part of the sources at hand, so
    every property below is established for all values of these constants. *)
Class mce_h : Type := {
  CALL_STATE_INVALID : call_state_t;
  CALL_STATE_RINGING : call_state_t;
  CALL_STATE_ACTIVE : call_state_t;
  MCE_ALARM_UI_INVALID_INT32 : alarm_ui_state_t;
  MCE_ALARM_UI_VISIBLE_INT32 : alarm_ui_state_t;
  MCE_ALARM_UI_RINGING_INT32 : alarm_ui_state_t;
  MCE_NORMAL_SUBMODE : submode_t;
  MCE_TKLOCK_SUBMODE : submode_t;
  MCE_CAM_LAUNCH_ACTIVE : string;
  MCE_FLICKER_KEY_ACTIVE : string;
  MCE_KBD_SLIDE_OPEN : string;
  MCE_LID_COVER_OPEN : string;
  MCE_PROXIMITY_SENSOR_OPEN : string;
  MCE_MUSB_OMAP3_USB_CABLE_CONNECTED : string;
  MCE_LENS_COVER_OPEN : string
}.

(** The path macros.  Their text never matters, only which one is meant. *)
Inductive file_path : Set :=
| MCE_FLICKER_KEY_STATE_PATH
| MCE_KBD_SLIDE_STATE_PATH
| MCE_CAM_FOCUS_STATE_PATH
| MCE_CAM_LAUNCH_STATE_PATH
| MCE_LID_COVER_STATE_PATH
| MCE_PROXIMITY_SENSOR_STATE_PATH
| MCE_MUSB_OMAP3_USB_CABLE_STATE_PATH
| MCE_LENS_COVER_STATE_PATH
| MCE_MMC0_COVER_STATE_PATH
| MCE_MMC_COVER_STATE_PATH
| MCE_BATTERY_COVER_STATE_PATH
| MCE_PROXIMITY_SENSOR_DISABLE_PATH
| MCE_CAM_FOCUS_DISABLE_PATH.

(** The datapipes of [datapipe.h] that the file touches. *)
Inductive datapipe : Set :=
| device_inactive_pipe
| camera_button_pipe
| lockkey_pipe
| keyboard_slide_pipe
| lid_cover_pipe
| proximity_sensor_pipe
| usb_cable_pipe
| lens_cover_pipe
| call_state_pipe
| alarm_ui_state_pipe
| submode_pipe.

Definition datapipe_eq_dec (p q : datapipe) : {p = q} + {p <> q}.
Proof. decide equality. Defined.

(** What [GINT_TO_POINTER] wraps before it is handed to a datapipe. *)
Inductive pipe_data : Set :=
| of_gboolean (b : bool)
| of_cover_state (c : cover_state_t)
| of_camera_button_state (b : camera_button_state_t)
| of_usb_cable_state (u : usb_cable_state_t)
| of_gint (z : Z).

Definition gconstpointer := option N.
Definition NULL : gconstpointer := None.

Definition is_null (p : gconstpointer) : bool :=
  match p with
  | None => true
  | Some _ => false
  end.

(** ** The functions of the file, by name

    Callbacks and triggers are passed by address to the I/O monitor and
    datapipe modules; these tags stand for the addresses. *)
Inductive iomon_callback : Set :=
| CB_generic_activity
| CB_camera_launch_button
| CB_lockkey
| CB_kbd_slide
| CB_lid_cover
| CB_proximity_sensor
| CB_usb_cable
| CB_lens_cover.

Inductive datapipe_trigger : Set :=
| TRIGGER_call_state
| TRIGGER_alarm_ui_state
| TRIGGER_submode.

(** ** File-scope state *)

(** The eleven [..._iomon_id] statics. *)
Inductive iomon_var : Set :=
| lockkey_iomon_id
| kbd_slide_iomon_id
| cam_focus_iomon_id
| cam_launch_iomon_id
| lid_cover_iomon_id
| proximity_sensor_iomon_id
| musb_omap3_usb_cable_iomon_id
| mmc0_cover_iomon_id
| mmc_cover_iomon_id
| lens_cover_iomon_id
| bat_cover_iomon_id.

Definition iomon_var_eq_dec (x y : iomon_var) : {x = y} + {x <> y}.
Proof. decide equality. Defined.

(** [old_submode] is the function-local static of [submode_trigger]. *)
Record statics : Type := mk_statics {
  iomon_id : iomon_var -> gconstpointer;
  cam_focus_disable_exists : bool;
  proximity_sensor_disable_exists : bool;
  call_state : call_state_t;
  alarm_ui_state : alarm_ui_state_t;
  has_flicker_key : bool;
  old_submode : submode_t
}.

Definition set_iomon_id (x : iomon_var) (p : gconstpointer) (v : statics) :=
  mk_statics
    (fun y => if iomon_var_eq_dec x y then p else iomon_id v y)
    (cam_focus_disable_exists v) (proximity_sensor_disable_exists v)
    (call_state v) (alarm_ui_state v) (has_flicker_key v) (old_submode v).

Definition set_cam_focus_disable_exists (b : bool) (v : statics) :=
  mk_statics (iomon_id v) b (proximity_sensor_disable_exists v)
    (call_state v) (alarm_ui_state v) (has_flicker_key v) (old_submode v).

Definition set_proximity_sensor_disable_exists (b : bool) (v : statics) :=
  mk_statics (iomon_id v) (cam_focus_disable_exists v) b
    (call_state v) (alarm_ui_state v) (has_flicker_key v) (old_submode v).

Definition set_call_state (c : call_state_t) (v : statics) :=
  mk_statics (iomon_id v) (cam_focus_disable_exists v)
    (proximity_sensor_disable_exists v)
    c (alarm_ui_state v) (has_flicker_key v) (old_submode v).

Definition set_alarm_ui_state (a : alarm_ui_state_t) (v : statics) :=
  mk_statics (iomon_id v) (cam_focus_disable_exists v)
    (proximity_sensor_disable_exists v)
    (call_state v) a (has_flicker_key v) (old_submode v).

Definition set_has_flicker_key (b : bool) (v : statics) :=
  mk_statics (iomon_id v) (cam_focus_disable_exists v)
    (proximity_sensor_disable_exists v)
    (call_state v) (alarm_ui_state v) b (old_submode v).

Definition set_old_submode (s : submode_t) (v : statics) :=
  mk_statics (iomon_id v) (cam_focus_disable_exists v)
    (proximity_sensor_disable_exists v)
    (call_state v) (alarm_ui_state v) (has_flicker_key v) s.

(** The initialisers of the statics. *)
Definition startup `{mce_h} : statics :=
  mk_statics (fun _ => NULL) false false
    CALL_STATE_INVALID MCE_ALARM_UI_INVALID_INT32 false MCE_NORMAL_SUBMODE.

(** ** The rest of the daemon, as seen from this file *)

(** Calls that leave the file, in the order they are made. *)
Inductive event : Type :=
| Ev_execute_datapipe (p : datapipe) (indata : pipe_data)
| Ev_write_string_to_file (f : file_path) (s : string)
| Ev_read_string_from_file (f : file_path)
| Ev_register_io_monitor_string (f : file_path) (cb : iomon_callback)
| Ev_unregister_io_monitor (id : gconstpointer)
| Ev_g_access (f : file_path)
| Ev_append_input_trigger (p : datapipe) (t : datapipe_trigger)
| Ev_append_output_trigger (p : datapipe) (t : datapipe_trigger)
| Ev_remove_input_trigger (p : datapipe) (t : datapipe_trigger)
| Ev_remove_output_trigger (p : datapipe) (t : datapipe_trigger).

(** What the outside answers during one call into the file. *)
Record environment : Type := {
  (** [Some text] when [mce_read_string_from_file] succeeds *)
  file_content : file_path -> option string;
  (** the handle [mce_register_io_monitor_string] returns, [NULL] on failure *)
  monitor_handle : file_path -> gconstpointer;
  (** whether [g_access (path, W_OK)] returns 0 *)
  write_access : file_path -> bool
}.

(** The statics together with the last value cached in each datapipe. *)
Record machine : Type := mk_machine {
  vars : statics;
  cached : datapipe -> pipe_data
}.

(** A state monad over [machine] that also collects the events. *)
Definition M (A : Type) : Type := machine -> A * machine * list event.

Definition ret {A} (a : A) : M A := fun m => (a, m, []).

Definition bind {A B} (c : M A) (k : A -> M B) : M B :=
  fun m =>
    let '(a, m1, t1) := c m in
    let '(b, m2, t2) := k a m1 in
    (b, m2, t1 ++ t2).

Declare Scope mce_scope.
Delimit Scope mce_scope with mce.
Notation "x <- c ;; k" := (bind c (fun x => k))
  (at level 61, c at next level, right associativity) : mce_scope.
Notation "c ;; k" := (bind c (fun _ => k))
  (at level 61, right associativity) : mce_scope.
Local Open Scope mce_scope.

Definition result {A} (r : A * machine * list event) : A := fst (fst r).
Definition final {A} (r : A * machine * list event) : machine := snd (fst r).
Definition emitted {A} (r : A * machine * list event) : list event := snd r.

Definition load {A} (field : statics -> A) : M A :=
  fun m => (field (vars m), m, []).

Definition store (upd : statics -> statics) : M unit :=
  fun m => (tt, mk_machine (upd (vars m)) (cached m), []).

Definition emit (e : event) : M unit := fun m => (tt, m, [e]).

(** Modelled from the spec: [execute_datapipe] of the event bus
    ([datapipe.c] is not among the sources), of which the spec says that it
    holds the last value per named channel and lets producers push new
    values.  Every call in the file passes [USE_INDATA, CACHE_INDATA]: the
    value pushed is the argument, and it becomes the cached value. *)
Definition execute_datapipe (p : datapipe) (indata : pipe_data) : M unit :=
  fun m =>
    (tt,
     mk_machine (vars m)
       (fun q => if datapipe_eq_dec p q then indata else cached m q),
     [Ev_execute_datapipe p indata]).

(** Modelled from the spec: the subscription calls of the event bus
    ([subscribe_input], [subscribe_output] and their inverses). *)
Definition append_input_trigger_to_datapipe p t : M unit :=
  emit (Ev_append_input_trigger p t).
Definition append_output_trigger_to_datapipe p t : M unit :=
  emit (Ev_append_output_trigger p t).
Definition remove_input_trigger_from_datapipe p t : M unit :=
  emit (Ev_remove_input_trigger p t).
Definition remove_output_trigger_from_datapipe p t : M unit :=
  emit (Ev_remove_output_trigger p t).

(** Modelled from the spec: the file helpers of [mce-io.c], which is not
    among the sources.  A control surface accepts ["0"] or ["1"]; a read
    either yields the text of the file or fails.  The status returned by the
    write is discarded at every call site. *)
Definition mce_write_string_to_file (f : file_path) (s : string) : M unit :=
  emit (Ev_write_string_to_file f s).

Definition mce_read_string_from_file (env : environment) (f : file_path)
  : M (option string) :=
  fun m => (file_content env f, m, [Ev_read_string_from_file f]).

(** Modelled from the spec: [open(path, error_policy, flags, callback) ->
    handle | none] of the notification source registry.  Every call in the
    file passes the same descriptor, error policy, condition and rewind
    arguments, so only the path and the callback are kept. *)
Definition mce_register_io_monitor_string (env : environment)
  (f : file_path) (cb : iomon_callback) : M gconstpointer :=
  fun m => (monitor_handle env f, m, [Ev_register_io_monitor_string f cb]).

Definition mce_unregister_io_monitor (id : gconstpointer) : M unit :=
  emit (Ev_unregister_io_monitor id).

(** [g_access (path, W_OK) == 0] *)
Definition g_access_W_OK (env : environment) (f : file_path) : M bool :=
  fun m => (write_access env f, m, [Ev_g_access f]).

(** ** The source, function by function *)

Section EventSwitches.

Context {hdr : mce_h}.

Import Libc.

(** [!strncmp(data, LIT, strlen(LIT))] *)
Definition matches (data lit : string) : bool :=
  strncmp data lit (strlen lit) =? 0.

Definition generic_activity_iomon_cb (data : string) (bytes_read : N)
  : M bool :=
  (* Generate activity *)
  execute_datapipe device_inactive_pipe (of_gboolean false) ;;
  ret false.

Definition camera_launch_button_iomon_cb (data : string) (bytes_read : N)
  : M bool :=
  let camera_button_state :=
    if matches data MCE_CAM_LAUNCH_ACTIVE
    then CAMERA_BUTTON_LAUNCH
    else CAMERA_BUTTON_UNPRESSED in
  (* Generate activity *)
  execute_datapipe device_inactive_pipe (of_gboolean false) ;;
  (* Update camera button state *)
  execute_datapipe camera_button_pipe
    (of_camera_button_state camera_button_state) ;;
  ret false.

Definition lockkey_iomon_cb (data : string) (bytes_read : N) : M bool :=
  let lockkey_state :=
    if matches data MCE_FLICKER_KEY_ACTIVE then 1 else 0 in
  execute_datapipe lockkey_pipe (of_gint lockkey_state) ;;
  ret false.

Definition kbd_slide_iomon_cb (data : string) (bytes_read : N) : M bool :=
  slide_state <-
    (if matches data MCE_KBD_SLIDE_OPEN
     then
       (* Generate activity *)
       execute_datapipe device_inactive_pipe (of_gboolean false) ;;
       ret COVER_OPEN
     else ret COVER_CLOSED) ;;
  execute_datapipe keyboard_slide_pipe (of_cover_state slide_state) ;;
  ret false.

Definition lid_cover_iomon_cb (data : string) (bytes_read : N) : M bool :=
  lid_cover_state <-
    (if matches data MCE_LID_COVER_OPEN
     then
       (* Generate activity *)
       execute_datapipe device_inactive_pipe (of_gboolean false) ;;
       ret COVER_OPEN
     else ret COVER_CLOSED) ;;
  execute_datapipe lid_cover_pipe (of_cover_state lid_cover_state) ;;
  ret false.

Definition proximity_sensor_iomon_cb (data : string) (bytes_read : N)
  : M bool :=
  let proximity_sensor_state :=
    if matches data MCE_PROXIMITY_SENSOR_OPEN
    then COVER_OPEN
    else COVER_CLOSED in
  execute_datapipe proximity_sensor_pipe
    (of_cover_state proximity_sensor_state) ;;
  ret false.

Definition usb_cable_iomon_cb (data : string) (bytes_read : N) : M bool :=
  let cable_state :=
    if matches data MCE_MUSB_OMAP3_USB_CABLE_CONNECTED
    then USB_CABLE_CONNECTED
    else USB_CABLE_DISCONNECTED in
  (* Generate activity *)
  execute_datapipe device_inactive_pipe (of_gboolean false) ;;
  execute_datapipe usb_cable_pipe (of_usb_cable_state cable_state) ;;
  ret false.

Definition lens_cover_iomon_cb (data : string) (bytes_read : N) : M bool :=
  lens_cover_state <-
    (if matches data MCE_LENS_COVER_OPEN
     then
       (* Generate activity *)
       execute_datapipe device_inactive_pipe (of_gboolean false) ;;
       ret COVER_OPEN
     else ret COVER_CLOSED) ;;
  execute_datapipe lens_cover_pipe (of_cover_state lens_cover_state) ;;
  ret false.

(** [status] is initialised to [FALSE] and returned at [EXIT]; no
    statement of the function assigns it. *)
Definition update_proximity_sensor_state (env : environment) : M bool :=
  let status := false in
  tmp <- mce_read_string_from_file env MCE_PROXIMITY_SENSOR_STATE_PATH ;;
  match tmp with
  | None => ret status
  | Some tmp =>
      let proximity_sensor_state :=
        if matches tmp MCE_PROXIMITY_SENSOR_OPEN
        then COVER_OPEN
        else COVER_CLOSED in
      execute_datapipe proximity_sensor_pipe
        (of_cover_state proximity_sensor_state) ;;
      ret status
  end.

Definition update_proximity_monitor (env : environment) : M unit :=
  disable_exists <- load proximity_sensor_disable_exists ;;
  if negb disable_exists then ret tt
  else
    call <- load call_state ;;
    alarm <- load alarm_ui_state ;;
    if (call =? CALL_STATE_RINGING)
       || (call =? CALL_STATE_ACTIVE)
       || (alarm =? MCE_ALARM_UI_VISIBLE_INT32)
       || (alarm =? MCE_ALARM_UI_RINGING_INT32)
    then
      mce_write_string_to_file MCE_PROXIMITY_SENSOR_DISABLE_PATH "0" ;;
      update_proximity_sensor_state env ;;
      ret tt
    else
      mce_write_string_to_file MCE_PROXIMITY_SENSOR_DISABLE_PATH "1".

Definition call_state_trigger (env : environment) (data : Z) : M unit :=
  store (set_call_state data) ;;
  update_proximity_monitor env.

Definition alarm_ui_state_trigger (env : environment) (data : Z)
  : M unit :=
  store (set_alarm_ui_state data) ;;
  update_proximity_monitor env.

Definition submode_trigger (data : Z) : M unit :=
  let submode := data in
  old <- load old_submode ;;
  (if negb (Z.land submode MCE_TKLOCK_SUBMODE =? 0)
   then
     if Z.land old MCE_TKLOCK_SUBMODE =? 0
     then
       disable_exists <- load cam_focus_disable_exists ;;
       focus_id <- load (fun v => iomon_id v cam_focus_iomon_id) ;;
       if disable_exists && negb (is_null focus_id)
       then mce_write_string_to_file MCE_CAM_FOCUS_DISABLE_PATH "1"
       else ret tt
     else ret tt
   else
     if negb (Z.land old MCE_TKLOCK_SUBMODE =? 0)
     then
       disable_exists <- load cam_focus_disable_exists ;;
       if disable_exists
       then mce_write_string_to_file MCE_CAM_FOCUS_DISABLE_PATH "0"
       else ret tt
     else ret tt) ;;
  store (set_old_submode submode).

(** One [x_iomon_id = mce_register_io_monitor_string (..., path, ..., cb)]
    assignment of [mce_switches_init]. *)
Definition register (env : environment) (x : iomon_var) (f : file_path)
  (cb : iomon_callback) : M unit :=
  id <- mce_register_io_monitor_string env f cb ;;
  store (set_iomon_id x id).

Definition mce_switches_init (env : environment) : M bool :=
  let status := false in
  (* Append triggers/filters to datapipes *)
  append_input_trigger_to_datapipe call_state_pipe TRIGGER_call_state ;;
  append_input_trigger_to_datapipe alarm_ui_state_pipe
    TRIGGER_alarm_ui_state ;;
  append_output_trigger_to_datapipe submode_pipe TRIGGER_submode ;;
  (* Set default values, in case these are not available *)
  execute_datapipe lid_cover_pipe (of_cover_state COVER_OPEN) ;;
  (* Register I/O monitors *)
  register env lockkey_iomon_id MCE_FLICKER_KEY_STATE_PATH CB_lockkey ;;
  register env kbd_slide_iomon_id MCE_KBD_SLIDE_STATE_PATH CB_kbd_slide ;;
  register env cam_focus_iomon_id MCE_CAM_FOCUS_STATE_PATH
    CB_generic_activity ;;
  register env cam_launch_iomon_id MCE_CAM_LAUNCH_STATE_PATH
    CB_camera_launch_button ;;
  register env lid_cover_iomon_id MCE_LID_COVER_STATE_PATH CB_lid_cover ;;
  register env proximity_sensor_iomon_id MCE_PROXIMITY_SENSOR_STATE_PATH
    CB_proximity_sensor ;;
  register env musb_omap3_usb_cable_iomon_id
    MCE_MUSB_OMAP3_USB_CABLE_STATE_PATH CB_usb_cable ;;
  register env lens_cover_iomon_id MCE_LENS_COVER_STATE_PATH
    CB_lens_cover ;;
  register env mmc0_cover_iomon_id MCE_MMC0_COVER_STATE_PATH
    CB_generic_activity ;;
  register env mmc_cover_iomon_id MCE_MMC_COVER_STATE_PATH
    CB_generic_activity ;;
  register env bat_cover_iomon_id MCE_BATTERY_COVER_STATE_PATH
    CB_generic_activity ;;
  update_proximity_monitor env ;;
  lockkey_id <- load (fun v => iomon_id v lockkey_iomon_id) ;;
  (if negb (is_null lockkey_id)
   then store (set_has_flicker_key true)
   else ret tt) ;;
  proximity_writable <-
    g_access_W_OK env MCE_PROXIMITY_SENSOR_DISABLE_PATH ;;
  store (set_proximity_sensor_disable_exists proximity_writable) ;;
  focus_writable <- g_access_W_OK env MCE_CAM_FOCUS_DISABLE_PATH ;;
  store (set_cam_focus_disable_exists focus_writable) ;;
  (* errno = 0 *)
  let status := true in
  ret status.

Definition unregister (x : iomon_var) : M unit :=
  id <- load (fun v => iomon_id v x) ;;
  mce_unregister_io_monitor id.

Definition mce_switches_exit : M unit :=
  (* Remove triggers/filters from datapipes *)
  remove_output_trigger_from_datapipe submode_pipe TRIGGER_submode ;;
  remove_input_trigger_from_datapipe alarm_ui_state_pipe
    TRIGGER_alarm_ui_state ;;
  remove_input_trigger_from_datapipe call_state_pipe TRIGGER_call_state ;;
  (* Unregister I/O monitors *)
  unregister bat_cover_iomon_id ;;
  unregister mmc_cover_iomon_id ;;
  unregister mmc0_cover_iomon_id ;;
  unregister lens_cover_iomon_id ;;
  unregister musb_omap3_usb_cable_iomon_id ;;
  unregister proximity_sensor_iomon_id ;;
  unregister lid_cover_iomon_id ;;
  unregister cam_launch_iomon_id ;;
  unregister cam_focus_iomon_id ;;
  unregister kbd_slide_iomon_id ;;
  unregister lockkey_iomon_id.

(** The function behind each callback tag. *)
Definition run_callback (cb : iomon_callback) : string -> N -> M bool :=
  match cb with
  | CB_generic_activity => generic_activity_iomon_cb
  | CB_camera_launch_button => camera_launch_button_iomon_cb
  | CB_lockkey => lockkey_iomon_cb
  | CB_kbd_slide => kbd_slide_iomon_cb
  | CB_lid_cover => lid_cover_iomon_cb
  | CB_proximity_sensor => proximity_sensor_iomon_cb
  | CB_usb_cable => usb_cable_iomon_cb
  | CB_lens_cover => lens_cover_iomon_cb
  end.

End EventSwitches.

(** ** The switch kinds and their monitors *)

Inductive SwitchKind : Set :=
| LidCover
| KeyboardSlide
| LensCover
| BatteryCover
| MmcCover0
| MmcCover1
| ProximitySensor
| UsbCable
| CameraLaunchButton
| CameraFocusButton
| LockKey.

(** The notification source of each kind, the callback that
    [mce_switches_init] registers for it, and the static that keeps its
    handle. *)
Definition state_path (k : SwitchKind) : file_path :=
  match k with
  | LidCover => MCE_LID_COVER_STATE_PATH
  | KeyboardSlide => MCE_KBD_SLIDE_STATE_PATH
  | LensCover => MCE_LENS_COVER_STATE_PATH
  | BatteryCover => MCE_BATTERY_COVER_STATE_PATH
  | MmcCover0 => MCE_MMC0_COVER_STATE_PATH
  | MmcCover1 => MCE_MMC_COVER_STATE_PATH
  | ProximitySensor => MCE_PROXIMITY_SENSOR_STATE_PATH
  | UsbCable => MCE_MUSB_OMAP3_USB_CABLE_STATE_PATH
  | CameraLaunchButton => MCE_CAM_LAUNCH_STATE_PATH
  | CameraFocusButton => MCE_CAM_FOCUS_STATE_PATH
  | LockKey => MCE_FLICKER_KEY_STATE_PATH
  end.

Definition callback_of (k : SwitchKind) : iomon_callback :=
  match k with
  | LidCover => CB_lid_cover
  | KeyboardSlide => CB_kbd_slide
  | LensCover => CB_lens_cover
  | BatteryCover => CB_generic_activity
  | MmcCover0 => CB_generic_activity
  | MmcCover1 => CB_generic_activity
  | ProximitySensor => CB_proximity_sensor
  | UsbCable => CB_usb_cable
  | CameraLaunchButton => CB_camera_launch_button
  | CameraFocusButton => CB_generic_activity
  | LockKey => CB_lockkey
  end.

Definition handle_of (k : SwitchKind) : iomon_var :=
  match k with
  | LidCover => lid_cover_iomon_id
  | KeyboardSlide => kbd_slide_iomon_id
  | LensCover => lens_cover_iomon_id
  | BatteryCover => bat_cover_iomon_id
  | MmcCover0 => mmc0_cover_iomon_id
  | MmcCover1 => mmc_cover_iomon_id
  | ProximitySensor => proximity_sensor_iomon_id
  | UsbCable => musb_omap3_usb_cable_iomon_id
  | CameraLaunchButton => cam_launch_iomon_id
  | CameraFocusButton => cam_focus_iomon_id
  | LockKey => lockkey_iomon_id
  end.

(** What the registry does with a payload of kind [k]. *)
Definition translate `{mce_h} (k : SwitchKind) (data : string)
  (bytes_read : N) : M bool :=
  run_callback (callback_of k) data bytes_read.

(** ** Vocabulary of the properties *)

(** The activity signal: the device is no longer inactive. *)
Definition activity : event :=
  Ev_execute_datapipe device_inactive_pipe (of_gboolean false).

(** The classification a kind admits: the literal its translator looks
    for, the channel its typed state goes to, and the two states.  The four
    kinds served by the generic translator have none. *)
Record translation : Type := {
  literal : string;
  channel : datapipe;
  positive : pipe_data;
  negative : pipe_data
}.

Definition translation_of `{mce_h} (k : SwitchKind) : option translation :=
  match k with
  | LidCover =>
      Some {| literal := MCE_LID_COVER_OPEN; channel := lid_cover_pipe;
              positive := of_cover_state COVER_OPEN;
              negative := of_cover_state COVER_CLOSED |}
  | KeyboardSlide =>
      Some {| literal := MCE_KBD_SLIDE_OPEN; channel := keyboard_slide_pipe;
              positive := of_cover_state COVER_OPEN;
              negative := of_cover_state COVER_CLOSED |}
  | LensCover =>
      Some {| literal := MCE_LENS_COVER_OPEN; channel := lens_cover_pipe;
              positive := of_cover_state COVER_OPEN;
              negative := of_cover_state COVER_CLOSED |}
  | ProximitySensor =>
      Some {| literal := MCE_PROXIMITY_SENSOR_OPEN;
              channel := proximity_sensor_pipe;
              positive := of_cover_state COVER_OPEN;
              negative := of_cover_state COVER_CLOSED |}
  | UsbCable =>
      Some {| literal := MCE_MUSB_OMAP3_USB_CABLE_CONNECTED;
              channel := usb_cable_pipe;
              positive := of_usb_cable_state USB_CABLE_CONNECTED;
              negative := of_usb_cable_state USB_CABLE_DISCONNECTED |}
  | CameraLaunchButton =>
      Some {| literal := MCE_CAM_LAUNCH_ACTIVE;
              channel := camera_button_pipe;
              positive := of_camera_button_state CAMERA_BUTTON_LAUNCH;
              negative := of_camera_button_state CAMERA_BUTTON_UNPRESSED |}
  | LockKey =>
      Some {| literal := MCE_FLICKER_KEY_ACTIVE; channel := lockkey_pipe;
              positive := of_gint 1; negative := of_gint 0 |}
  | BatteryCover | MmcCover0 | MmcCover1 | CameraFocusButton => None
  end.

(** The activity policy of a cover switch with literal [lit] and channel
    [p], for the payload [data] and the trace [t] of its translator: the
    activity signal is published exactly when the payload begins with the
    literal, exactly when the open state is published; and the whole trace
    is the activity signal followed by the open state in that case, the
    closed state alone in the other. *)
Definition cover_policy (lit : string) (p : datapipe) (data : string)
  (t : list event) : Prop :=
  (In activity t <-> Libc.begins_with lit data)
  /\ (In activity t
      <-> In (Ev_execute_datapipe p (of_cover_state COVER_OPEN)) t)
  /\ ((Libc.begins_with lit data
       /\ t = [activity;
               Ev_execute_datapipe p (of_cover_state COVER_OPEN)])
      \/ (~ Libc.begins_with lit data
          /\ t = [Ev_execute_datapipe p (of_cover_state COVER_CLOSED)])).

(** [classifies_by_prefix k]: the translator of kind [k] classifies
    payloads by a literal.  There are a literal, a channel and two states
    such that, for every payload, the positive state is published on the
    channel exactly when the payload begins with the literal and the
    negative state exactly when it does not, the empty payload being
    negative. *)
Definition classifies_by_prefix `{mce_h} (k : SwitchKind) : Prop :=
  exists tr : translation,
    forall data bytes_read m,
      (In (Ev_execute_datapipe (channel tr) (positive tr))
          (emitted (translate k data bytes_read m))
       <-> Libc.begins_with (literal tr) data)
      /\ (In (Ev_execute_datapipe (channel tr) (negative tr))
             (emitted (translate k data bytes_read m))
          <-> ~ Libc.begins_with (literal tr) data)
      /\ In (Ev_execute_datapipe (channel tr) (negative tr))
            (emitted (translate k EmptyString bytes_read m)).

(** [precedes a b t]: in the trace [t], [a] is issued at some point and
    [b] at a later one. *)
Definition precedes (a b : event) (t : list event) : Prop :=
  exists t1 t2 t3, t = t1 ++ a :: t2 ++ b :: t3.

(** [activity_first p t]: whenever the trace [t] holds both the activity
    signal and a publication on the channel [p], the activity signal comes
    first, and never after. *)
Definition activity_first (p : datapipe) (t : list event) : Prop :=
  forall v,
    In activity t ->
    In (Ev_execute_datapipe p v) t ->
    precedes activity (Ev_execute_datapipe p v) t
    /\ ~ precedes (Ev_execute_datapipe p v) activity t.

(** [open_after_activity p t]: if the trace [t] publishes the open state
    on the channel [p], the activity signal was issued earlier in [t]. *)
Definition open_after_activity (p : datapipe) (t : list event) : Prop :=
  In (Ev_execute_datapipe p (of_cover_state COVER_OPEN)) t ->
  precedes activity (Ev_execute_datapipe p (of_cover_state COVER_OPEN)) t.

(** The commands a trace sends to control surfaces, in order. *)
Fixpoint control_writes (t : list event) : list (file_path * string) :=
  match t with
  | [] => []
  | Ev_write_string_to_file f s :: t' => (f, s) :: control_writes t'
  | _ :: t' => control_writes t'
  end.

(** "Sensor needed": a call is ringing or active, or the alarm dialog is
    visible or ringing. *)
Definition sensor_needed `{mce_h} (call : call_state_t)
  (alarm : alarm_ui_state_t) : Prop :=
  (call = CALL_STATE_RINGING \/ call = CALL_STATE_ACTIVE)
  \/ (alarm = MCE_ALARM_UI_VISIBLE_INT32 \/ alarm = MCE_ALARM_UI_RINGING_INT32).

(** The lock bit of a submode. *)
Definition tklock `{mce_h} (s : submode_t) : bool :=
  negb (Z.land s MCE_TKLOCK_SUBMODE =? 0).

(** Two submodes that differ, if at all, outside the lock mask. *)
Definition same_lock_bits `{mce_h} (s1 s2 : submode_t) : Prop :=
  forall i, Z.testbit MCE_TKLOCK_SUBMODE i = true ->
            Z.testbit s1 i = Z.testbit s2 i.

Definition focus_disable : event :=
  Ev_write_string_to_file MCE_CAM_FOCUS_DISABLE_PATH "1".
Definition focus_enable : event :=
  Ev_write_string_to_file MCE_CAM_FOCUS_DISABLE_PATH "0".

(** The camera-focus interlock in the words of its description: disable on
    a rising edge of the lock bit, enable on a falling edge, nothing
    otherwise.  [locked] is the lock bit before the first update. *)
Fixpoint lock_edge_writes `{mce_h} (locked : bool) (updates : list submode_t)
  : list event :=
  match updates with
  | [] => []
  | s :: rest =>
      match locked, tklock s with
      | false, true => focus_disable :: lock_edge_writes true rest
      | true, false => focus_enable :: lock_edge_writes false rest
      | _, _ => lock_edge_writes (tklock s) rest
      end
  end.

(** A run of submode updates, delivered one after the other. *)
Fixpoint deliver_submodes `{mce_h} (updates : list submode_t) : M unit :=
  match updates with
  | [] => ret tt
  | s :: rest => submode_trigger s ;; deliver_submodes rest
  end.

(** ** A configuration to run the model on *)

(** The lock bit is [0b10], the normal submode has no flag set and the lid
    cover reports ["open"], as in the scenarios of the description; the
    other values only need to be some integers and some NUL-free texts. *)
Definition sample_header : mce_h := {|
  CALL_STATE_INVALID := -1;
  CALL_STATE_RINGING := 1;
  CALL_STATE_ACTIVE := 2;
  MCE_ALARM_UI_INVALID_INT32 := -1;
  MCE_ALARM_UI_VISIBLE_INT32 := 2;
  MCE_ALARM_UI_RINGING_INT32 := 1;
  MCE_NORMAL_SUBMODE := 0;
  MCE_TKLOCK_SUBMODE := 2;
  MCE_CAM_LAUNCH_ACTIVE := "active";
  MCE_FLICKER_KEY_ACTIVE := "closed";
  MCE_KBD_SLIDE_OPEN := "open";
  MCE_LID_COVER_OPEN := "open";
  MCE_PROXIMITY_SENSOR_OPEN := "open";
  MCE_MUSB_OMAP3_USB_CABLE_CONNECTED := "connected";
  MCE_LENS_COVER_OPEN := "open"
|}.

(** Every source opens, every control surface is writable, and the
    proximity sensor reads ["open"]. *)
Definition sample_environment : environment := {|
  file_content := fun f =>
    match f with
    | MCE_PROXIMITY_SENSOR_STATE_PATH => Some "open"%string
    | _ => None
    end;
  monitor_handle := fun _ => Some 1%N;
  write_access := fun _ => true
|}.

(** Nothing opens and no control surface is writable. *)
Definition bare_environment : environment := {|
  file_content := fun _ => None;
  monitor_handle := fun _ => NULL;
  write_access := fun _ => false
|}.

(** The machine at process start: the statics at their initialisers and
    every datapipe holding [cache]. *)
Definition boot `{mce_h} (cache : datapipe -> pipe_data) : machine :=
  mk_machine startup cache.

Definition sample_boot : machine :=
  @boot sample_header (fun _ => of_gint 0).

(** The machine once [mce_switches_init] has run in the sample
    environment. *)
Definition sample_running : machine :=
  final (@mce_switches_init sample_header sample_environment sample_boot).

(** The three flags that start-up discovers. *)
Definition capabilities (v : statics) : bool * bool * bool :=
  (proximity_sensor_disable_exists v, cam_focus_disable_exists v,
   has_flicker_key v).

(** The part of [mce_switches_init] that precedes the interlock: the
    subscriptions, the default lid state and the eleven registrations. *)
Definition registrations : list event :=
  [Ev_append_input_trigger call_state_pipe TRIGGER_call_state;
   Ev_append_input_trigger alarm_ui_state_pipe TRIGGER_alarm_ui_state;
   Ev_append_output_trigger submode_pipe TRIGGER_submode;
   Ev_execute_datapipe lid_cover_pipe (of_cover_state COVER_OPEN);
   Ev_register_io_monitor_string MCE_FLICKER_KEY_STATE_PATH CB_lockkey;
   Ev_register_io_monitor_string MCE_KBD_SLIDE_STATE_PATH CB_kbd_slide;
   Ev_register_io_monitor_string MCE_CAM_FOCUS_STATE_PATH CB_generic_activity;
   Ev_register_io_monitor_string MCE_CAM_LAUNCH_STATE_PATH
     CB_camera_launch_button;
   Ev_register_io_monitor_string MCE_LID_COVER_STATE_PATH CB_lid_cover;
   Ev_register_io_monitor_string MCE_PROXIMITY_SENSOR_STATE_PATH
     CB_proximity_sensor;
   Ev_register_io_monitor_string MCE_MUSB_OMAP3_USB_CABLE_STATE_PATH
     CB_usb_cable;
   Ev_register_io_monitor_string MCE_LENS_COVER_STATE_PATH CB_lens_cover;
   Ev_register_io_monitor_string MCE_MMC0_COVER_STATE_PATH CB_generic_activity;
   Ev_register_io_monitor_string MCE_MMC_COVER_STATE_PATH CB_generic_activity;
   Ev_register_io_monitor_string MCE_BATTERY_COVER_STATE_PATH
     CB_generic_activity].

Definition probes : list event :=
  [Ev_g_access MCE_PROXIMITY_SENSOR_DISABLE_PATH;
   Ev_g_access MCE_CAM_FOCUS_DISABLE_PATH].

(** The machine as the interlock finds it during start-up: the lid cover
    channel holds its default and the eleven handles are stored; no other
    static has been assigned yet. *)
Definition registered (env : environment) (m : machine) : machine :=
  mk_machine
    (fold_right
       (fun k v =>
          set_iomon_id (handle_of k) (monitor_handle env (state_path k)) v)
       (vars m)
       [BatteryCover; MmcCover1; MmcCover0; LensCover; UsbCable;
        ProximitySensor; LidCover; CameraLaunchButton; CameraFocusButton;
        KeyboardSlide; LockKey])
    (fun q => if datapipe_eq_dec lid_cover_pipe q
              then of_cover_state COVER_OPEN else cached m q).

(** ** Runs: calls into the file after start-up *)

(** One call made by the rest of the daemon: a datapipe running one of the
    three triggers, or the I/O monitor handing a payload to a callback.  The
    two proximity triggers carry the answers the outside gives during that
    call. *)
Inductive delivery : Type :=
| Call_state_update (env : environment) (data : Z)
| Alarm_ui_state_update (env : environment) (data : Z)
| Submode_update (data : Z)
| Payload (cb : iomon_callback) (data : string) (bytes_read : N).

Definition deliver `{mce_h} (d : delivery) : M unit :=
  match d with
  | Call_state_update env data => call_state_trigger env data
  | Alarm_ui_state_update env data => alarm_ui_state_trigger env data
  | Submode_update data => submode_trigger data
  | Payload cb data bytes_read => run_callback cb data bytes_read ;; ret tt
  end.

Fixpoint run `{mce_h} (ds : list delivery) : M unit :=
  match ds with
  | [] => ret tt
  | d :: rest => deliver d ;; run rest
  end.

(** The value most recently delivered to each trigger, [default] when the
    run holds none. *)
Fixpoint last_call_state (ds : list delivery) (default : Z) : Z :=
  match ds with
  | [] => default
  | Call_state_update _ data :: rest => last_call_state rest data
  | _ :: rest => last_call_state rest default
  end.

Fixpoint last_alarm_ui_state (ds : list delivery) (default : Z) : Z :=
  match ds with
  | [] => default
  | Alarm_ui_state_update _ data :: rest => last_alarm_ui_state rest data
  | _ :: rest => last_alarm_ui_state rest default
  end.

Fixpoint last_submode (ds : list delivery) (default : Z) : Z :=
  match ds with
  | [] => default
  | Submode_update data :: rest => last_submode rest data
  | _ :: rest => last_submode rest default
  end.

(** The last command a trace sends to the proximity control surface. *)
Fixpoint last_proximity_command (t : list event) : option string :=
  match t with
  | [] => None
  | e :: t' =>
      match last_proximity_command t' with
      | Some c => Some c
      | None =>
          match e with
          | Ev_write_string_to_file MCE_PROXIMITY_SENSOR_DISABLE_PATH s =>
              Some s
          | _ => None
          end
      end
  end.

(** The events a trigger or a callback may produce: a publication on one of
    the channels the file feeds, a command to one of the two control
    surfaces, or a read of the proximity sensor. *)
Definition handler_event (e : event) : Prop :=
  match e with
  | Ev_execute_datapipe p _ =>
      p <> call_state_pipe /\ p <> alarm_ui_state_pipe /\ p <> submode_pipe
  | Ev_write_string_to_file f s =>
      (f = MCE_PROXIMITY_SENSOR_DISABLE_PATH
       \/ f = MCE_CAM_FOCUS_DISABLE_PATH)
      /\ (s = "0"%string \/ s = "1"%string)
  | Ev_read_string_from_file f => f = MCE_PROXIMITY_SENSOR_STATE_PATH
  | _ => False
  end.

(** [reads_follow_enable prev t]: every read of a file in [t] comes
    directly after the command "0" to the proximity control surface; [prev]
    is the event before the first one of [t], if any. *)
Fixpoint reads_follow_enable (prev : option event) (t : list event) : Prop :=
  match t with
  | [] => True
  | e :: t' =>
      match e with
      | Ev_read_string_from_file _ =>
          prev = Some (Ev_write_string_to_file
                         MCE_PROXIMITY_SENSOR_DISABLE_PATH "0")
      | _ => True
      end
      /\ reads_follow_enable (Some e) t'
  end.

(** A trace of focus commands in which disable and enable take turns;
    [disable_next] tells which one is due first. *)
Fixpoint alternates (disable_next : bool) (t : list event) : Prop :=
  match t with
  | [] => True
  | e :: t' =>
      e = (if disable_next then focus_disable else focus_enable)
      /\ alternates (negb disable_next) t'
  end.

(** The sources a trace registers, the handles it releases and the
    triggers it adds and removes ([true] marks an input trigger), each in
    order. *)
Fixpoint registered_paths (t : list event) : list file_path :=
  match t with
  | [] => []
  | Ev_register_io_monitor_string f _ :: t' => f :: registered_paths t'
  | _ :: t' => registered_paths t'
  end.

Fixpoint released_handles (t : list event) : list gconstpointer :=
  match t with
  | [] => []
  | Ev_unregister_io_monitor id :: t' => id :: released_handles t'
  | _ :: t' => released_handles t'
  end.

Fixpoint added_triggers (t : list event)
  : list (bool * datapipe * datapipe_trigger) :=
  match t with
  | [] => []
  | Ev_append_input_trigger p g :: t' => (true, p, g) :: added_triggers t'
  | Ev_append_output_trigger p g :: t' => (false, p, g) :: added_triggers t'
  | _ :: t' => added_triggers t'
  end.

Fixpoint removed_triggers (t : list event)
  : list (bool * datapipe * datapipe_trigger) :=
  match t with
  | [] => []
  | Ev_remove_input_trigger p g :: t' => (true, p, g) :: removed_triggers t'
  | Ev_remove_output_trigger p g :: t' =>
      (false, p, g) :: removed_triggers t'
  | _ :: t' => removed_triggers t'
  end.

(** Every source opens except the camera focus one; every control surface
    is writable. *)
Definition focus_closed_environment : environment := {|
  file_content := fun _ => None;
  monitor_handle := fun f =>
    match f with
    | MCE_CAM_FOCUS_STATE_PATH => NULL
    | _ => Some 1%N
    end;
  write_access := fun _ => true
|}.

Definition sample_focus_closed : machine :=
  final (@mce_switches_init sample_header focus_closed_environment
           sample_boot).

Definition sample_bare : machine :=
  final (@mce_switches_init sample_header bare_environment sample_boot).

(** * Properties *)

(** ** The prefix test *)

Section LibcFacts.

Import Libc.

Lemma uchar_inj c1 c2 : uchar c1 = uchar c2 -> c1 = c2.
Proof.
unfold uchar; intros H.
apply N2Z.inj in H.
rewrite <- (ascii_N_embedding c1), <- (ascii_N_embedding c2).
now rewrite H.
Qed.

Lemma nul_free_cons c r :
nul_free (String c r) -> c <> NUL /\ nul_free r.
Proof.
unfold nul_free; cbn [strlen String.length].
destruct (Ascii.eqb_spec c NUL) as [->|Hc]; [discriminate|].
intros H; split; [assumption|congruence].
Qed.

Lemma nul_free_strlen_cons c r :
nul_free (String c r) -> strlen (String c r) = S (strlen r).
Proof.
intros H; destruct (nul_free_cons _ _ H) as [Hc _].
cbn [strlen]. destruct (Ascii.eqb_spec c NUL); [contradiction|reflexivity].
Qed.

(** The test every translator performs, [!strncmp(data, LIT, strlen(LIT))],
  succeeds exactly on the payloads that begin with [LIT]. *)
Lemma strncmp_strlen_begins_with lit :
nul_free lit ->
forall data, strncmp data lit (strlen lit) = 0 <-> begins_with lit data.
Proof.
induction lit as [|c r IH]; intros Hnf data.
- cbn. split; [intros _; now exists data|reflexivity].
- rewrite (nul_free_strlen_cons _ _ Hnf).
  destruct (nul_free_cons _ _ Hnf) as [Hc Hr].
  cbn [strncmp deref].
  destruct (Ascii.eqb_spec (deref data) c) as [Heq|Hne].
  + destruct (Ascii.eqb_spec (deref data) NUL) as [Hz|_]; [congruence|].
    destruct data as [|d data']; cbn in Heq; [congruence|subst d].
    cbn [next]. rewrite (IH Hr data').
    split; intros [rest Hrest]; exists rest; cbn in *; congruence.
  + split.
    * intros H. exfalso. apply Hne, uchar_inj. lia.
    * intros [rest ->]. cbn in Hne. congruence.
Qed.

Lemma begins_with_prefix lit s :
begins_with lit s <-> String.prefix lit s = true.
Proof.
revert s; induction lit as [|c r IH]; intros s.
- split; [intros _; now destruct s|intros _; now exists s].
- destruct s as [|d s']; cbn.
  + split; [intros [rest H]; discriminate|discriminate].
  + destruct (ascii_dec c d) as [->|Hne].
    * rewrite <- IH. split; intros [rest H]; exists rest; cbn in *; congruence.
    * split; [intros [rest H]; cbn in H; congruence|discriminate].
Qed.

End LibcFacts.

(** ** The translators *)

Section Translators.

Context {hdr : mce_h}.

Import Libc.

Lemma matches_begins_with data lit :
  nul_free lit -> (matches data lit = true <-> begins_with lit data).
Proof.
  intros Hnf. unfold matches. rewrite Z.eqb_eq.
  now apply strncmp_strlen_begins_with.
Qed.

Lemma matches_empty_payload lit :
  nul_free lit -> lit <> EmptyString -> matches EmptyString lit = false.
Proof.
  intros Hnf Hne.
  destruct (matches EmptyString lit) eqn:E; [|reflexivity].
  apply (matches_begins_with _ _ Hnf) in E. destruct E as [rest E].
  destruct lit; [contradiction|discriminate].
Qed.

(** The trace of each callback, by the outcome of its prefix test. *)

Lemma generic_activity_trace data n m :
  emitted (generic_activity_iomon_cb data n m) = [activity].
Proof. reflexivity. Qed.

Lemma camera_launch_button_trace data n m :
  emitted (camera_launch_button_iomon_cb data n m) =
  [activity;
   Ev_execute_datapipe camera_button_pipe
     (of_camera_button_state
        (if matches data MCE_CAM_LAUNCH_ACTIVE
         then CAMERA_BUTTON_LAUNCH else CAMERA_BUTTON_UNPRESSED))].
Proof. reflexivity. Qed.

Lemma lockkey_trace data n m :
  emitted (lockkey_iomon_cb data n m) =
  [Ev_execute_datapipe lockkey_pipe
     (of_gint (if matches data MCE_FLICKER_KEY_ACTIVE then 1 else 0))].
Proof. reflexivity. Qed.

Lemma kbd_slide_trace data n m :
  emitted (kbd_slide_iomon_cb data n m) =
  if matches data MCE_KBD_SLIDE_OPEN
  then [activity;
        Ev_execute_datapipe keyboard_slide_pipe (of_cover_state COVER_OPEN)]
  else [Ev_execute_datapipe keyboard_slide_pipe
          (of_cover_state COVER_CLOSED)].
Proof.
  unfold kbd_slide_iomon_cb, bind.
  now destruct (matches data MCE_KBD_SLIDE_OPEN).
Qed.

Lemma lid_cover_trace data n m :
  emitted (lid_cover_iomon_cb data n m) =
  if matches data MCE_LID_COVER_OPEN
  then [activity;
        Ev_execute_datapipe lid_cover_pipe (of_cover_state COVER_OPEN)]
  else [Ev_execute_datapipe lid_cover_pipe (of_cover_state COVER_CLOSED)].
Proof.
  unfold lid_cover_iomon_cb, bind.
  now destruct (matches data MCE_LID_COVER_OPEN).
Qed.

Lemma proximity_sensor_trace data n m :
  emitted (proximity_sensor_iomon_cb data n m) =
  [Ev_execute_datapipe proximity_sensor_pipe
     (of_cover_state
        (if matches data MCE_PROXIMITY_SENSOR_OPEN
         then COVER_OPEN else COVER_CLOSED))].
Proof. reflexivity. Qed.

Lemma usb_cable_trace data n m :
  emitted (usb_cable_iomon_cb data n m) =
  [activity;
   Ev_execute_datapipe usb_cable_pipe
     (of_usb_cable_state
        (if matches data MCE_MUSB_OMAP3_USB_CABLE_CONNECTED
         then USB_CABLE_CONNECTED else USB_CABLE_DISCONNECTED))].
Proof. reflexivity. Qed.

Lemma lens_cover_trace data n m :
  emitted (lens_cover_iomon_cb data n m) =
  if matches data MCE_LENS_COVER_OPEN
  then [activity;
        Ev_execute_datapipe lens_cover_pipe (of_cover_state COVER_OPEN)]
  else [Ev_execute_datapipe lens_cover_pipe (of_cover_state COVER_CLOSED)].
Proof.
  unfold lens_cover_iomon_cb, bind.
  now destruct (matches data MCE_LENS_COVER_OPEN).
Qed.

(** Every callback tells the registry to keep reading. *)
Lemma run_callback_result cb data n m :
  result (run_callback cb data n m) = false.
Proof.
  destruct cb; cbn [run_callback]; try reflexivity.
  - unfold kbd_slide_iomon_cb, bind.
    now destruct (matches data MCE_KBD_SLIDE_OPEN).
  - unfold lid_cover_iomon_cb, bind.
    now destruct (matches data MCE_LID_COVER_OPEN).
  - unfold lens_cover_iomon_cb, bind.
    now destruct (matches data MCE_LENS_COVER_OPEN).
Qed.

(** No callback writes a static. *)
Lemma run_callback_vars cb data n m :
  vars (final (run_callback cb data n m)) = vars m.
Proof.
  destruct cb; cbn [run_callback]; try reflexivity.
  - unfold kbd_slide_iomon_cb, bind.
    now destruct (matches data MCE_KBD_SLIDE_OPEN).
  - unfold lid_cover_iomon_cb, bind.
    now destruct (matches data MCE_LID_COVER_OPEN).
  - unfold lens_cover_iomon_cb, bind.
    now destruct (matches data MCE_LENS_COVER_OPEN).
Qed.

Lemma precedes_pair a b x y :
  precedes a b [x; y] <-> a = x /\ b = y.
Proof.
  split.
  - intros (t1 & t2 & t3 & H).
    destruct t1 as [|e1 t1]; cbn in H.
    + injection H as Hx H. destruct t2 as [|e2 t2]; cbn in H.
      * injection H as Hy _. now subst.
      * injection H as _ H. now destruct t2.
    + injection H as _ H. destruct t1 as [|e1' t1]; cbn in H.
      * injection H as _ H. now destruct t2.
      * injection H as _ H. now destruct t1.
  - intros [-> ->]. now exists [], [], [].
Qed.

Lemma precedes_single a b x : ~ precedes a b [x].
Proof.
  intros (t1 & t2 & t3 & H).
  destruct t1 as [|e1 t1]; cbn in H.
  - injection H as _ H. now destruct t2.
  - injection H as _ H. now destruct t1.
Qed.

Ltac split_on_match :=
  match goal with
  | |- context [matches ?d ?l] => destruct (matches d l) eqn:?
  end.

(** C3, amended.  For every switch kind that has an active literal (lid
    cover, keyboard slide, lens cover, proximity sensor, USB cable, camera
    launch button, lock key), and every payload: the translator publishes the positive state (open, launch,
    connected, 1) on the kind's channel if and only if the payload begins
    with the literal, byte for byte; it publishes the negative state if and
    only if the payload does not; it publishes nothing else on that channel;
    and the empty payload is classified as negative whenever the literal is
    not itself empty. *)
Theorem translator_prefix_classification
  (k : SwitchKind) (tr : translation) (data : string) (bytes_read : N)
  (m : machine) :
  translation_of k = Some tr ->
  nul_free (literal tr) ->
  (In (Ev_execute_datapipe (channel tr) (positive tr))
      (emitted (translate k data bytes_read m))
   <-> begins_with (literal tr) data)
  /\ (In (Ev_execute_datapipe (channel tr) (negative tr))
         (emitted (translate k data bytes_read m))
      <-> ~ begins_with (literal tr) data)
  /\ (forall v,
         In (Ev_execute_datapipe (channel tr) v)
            (emitted (translate k data bytes_read m)) ->
         v = positive tr \/ v = negative tr)
  /\ (literal tr <> EmptyString ->
      In (Ev_execute_datapipe (channel tr) (negative tr))
         (emitted (translate k EmptyString bytes_read m))).
Proof.
  intros Htr Hnf.
  pose proof (matches_begins_with data _ Hnf) as Hm.
  pose proof (matches_empty_payload _ Hnf) as He.
  destruct k; cbn in Htr; try discriminate;
    injection Htr as <-; cbn [literal channel positive negative] in *;
    unfold translate; cbn [callback_of run_callback];
    rewrite ?lid_cover_trace, ?kbd_slide_trace, ?lens_cover_trace,
      ?proximity_sensor_trace, ?usb_cable_trace, ?camera_launch_button_trace,
      ?lockkey_trace;
    (split; [|split; [|split]]);
    try (intros Hne; rewrite (He Hne); cbn; tauto);
    split_on_match; cbn;
    intuition (try discriminate; try congruence).
Qed.

End Translators.

(** The classification at work for the lid cover, whose literal is
    ["open"]: a longer payload is open, a payload in capitals and the empty
    payload are closed. *)
Lemma translator_prefix_classification_witness :
  @translation_of sample_header LidCover
  = Some {| literal := "open"; channel := lid_cover_pipe;
            positive := of_cover_state COVER_OPEN;
            negative := of_cover_state COVER_CLOSED |}
  /\ Libc.nul_free "open"
  /\ (In (Ev_execute_datapipe lid_cover_pipe (of_cover_state COVER_OPEN))
         (emitted (@translate sample_header LidCover "opened" 6 sample_boot))
      <-> Libc.begins_with "open" "opened").
Proof.
  split; [reflexivity|]. split; [reflexivity|].
  exact (proj1 (@translator_prefix_classification sample_header LidCover _
                  "opened"%string 6%N sample_boot eq_refl eq_refl)).
Defined.

Example lid_cover_is_case_sensitive :
  emitted (@translate sample_header LidCover "OPEN" 4 sample_boot)
  = [Ev_execute_datapipe lid_cover_pipe (of_cover_state COVER_CLOSED)].
Proof. reflexivity. Qed.

Example lid_cover_exact_literal :
  emitted (@translate sample_header LidCover "open" 4 sample_boot)
  = [activity;
     Ev_execute_datapipe lid_cover_pipe (of_cover_state COVER_OPEN)].
Proof. reflexivity. Qed.

(** The four kinds served by the generic translator publish the activity
    signal and nothing else, so no literal, channel and pair of states makes
    them classify payloads. *)
Lemma generic_kinds_do_not_classify {hdr : mce_h} (k : SwitchKind) :
  callback_of k = CB_generic_activity -> ~ classifies_by_prefix k.
Proof.
  intros Hk [tr H].
  destruct (H EmptyString 0%N (mk_machine startup (fun _ => of_gint 0)))
    as (_ & _ & Hneg).
  destruct (H (literal tr) 0%N (mk_machine startup (fun _ => of_gint 0)))
    as (_ & Hiff & _).
  unfold translate in Hneg, Hiff. rewrite Hk in Hneg, Hiff.
  cbn [run_callback] in Hneg, Hiff.
  rewrite generic_activity_trace in Hneg, Hiff.
  apply Hiff in Hneg. apply Hneg.
  exists EmptyString. clear. induction (literal tr) as [|c r IH];
    [reflexivity|]. cbn. now rewrite <- IH.
Qed.

(** C3, as it was stated for every switch kind, fails for the battery
    cover: its translator is [generic_activity_iomon_cb], which publishes
    the activity signal whatever the payload and classifies nothing. *)
Lemma battery_cover_is_not_classified :
  ~ @classifies_by_prefix sample_header BatteryCover.
Proof. apply generic_kinds_do_not_classify. reflexivity. Qed.

(** The same statement holds for the lid cover, with the literal
    ["open"]. *)
Example lid_cover_is_classified : @classifies_by_prefix sample_header LidCover.
Proof.
  exists {| literal := "open"; channel := lid_cover_pipe;
            positive := of_cover_state COVER_OPEN;
            negative := of_cover_state COVER_CLOSED |}.
  intros data n m. cbn [literal channel positive negative].
  unfold translate. cbn [callback_of run_callback].
  rewrite !lid_cover_trace.
  pose proof (matches_begins_with data "open"%string eq_refl) as Hm.
  change (@MCE_LID_COVER_OPEN sample_header) with "open"%string.
  split; [|split].
  - destruct (matches data "open"%string); cbn;
      intuition (try discriminate; try congruence).
  - destruct (matches data "open"%string); cbn;
      intuition (try discriminate; try congruence).
  - now left.
Qed.

(** ** Which translators signal activity, and when *)

Section ActivityPolicy.

Context {hdr : mce_h}.

Ltac split_on_match :=
  match goal with
  | |- context [matches ?d ?l] => destruct (matches d l) eqn:?
  end.

Ltac callback_trace :=
  unfold translate; cbn [callback_of run_callback];
  rewrite ?lid_cover_trace, ?kbd_slide_trace, ?lens_cover_trace,
    ?proximity_sensor_trace, ?usb_cable_trace, ?camera_launch_button_trace,
    ?lockkey_trace, ?generic_activity_trace.

Lemma cover_activity_iff_open p data lit :
  let t := if matches data lit
           then [activity; Ev_execute_datapipe p (of_cover_state COVER_OPEN)]
           else [Ev_execute_datapipe p (of_cover_state COVER_CLOSED)] in
  In activity t
  <-> In (Ev_execute_datapipe p (of_cover_state COVER_OPEN)) t.
Proof.
  cbv zeta. destruct (matches data lit); cbn; unfold activity;
    intuition (try discriminate; try congruence).
Qed.

Lemma cover_policy_holds p data lit :
  Libc.nul_free lit ->
  cover_policy lit p data
    (if matches data lit
     then [activity; Ev_execute_datapipe p (of_cover_state COVER_OPEN)]
     else [Ev_execute_datapipe p (of_cover_state COVER_CLOSED)]).
Proof.
  intros Hnf. pose proof (matches_begins_with data lit Hnf) as Hm.
  unfold cover_policy.
  split; [|split; [apply cover_activity_iff_open|]].
  - destruct (matches data lit); cbn; unfold activity;
      intuition (try discriminate; try congruence).
  - destruct (matches data lit).
    + left. split; [now apply Hm|reflexivity].
    + right. split; [|reflexivity]. intros H. apply Hm in H. discriminate.
Qed.

(** C4.  For every payload, the literals of the three covers being C
    strings: the lid cover, keyboard slide and lens cover translators
    publish the activity signal if and only if the payload begins with
    their open literal, which is if and only if they publish the open state
    (their trace is then the activity signal followed by the open state,
    and the closed state alone otherwise); the USB cable and camera launch
    button translators always publish it, followed by their typed state;
    the proximity sensor translator publishes one cover state and nothing
    else; the lock key translator publishes 0 or 1 on its own channel and
    nothing else; the translators of the camera focus button, of both MMC
    covers and of the battery cover publish the activity signal and nothing
    else. *)
Theorem activity_policy (data : string) (bytes_read : N) (m : machine) :
  Libc.nul_free MCE_LID_COVER_OPEN ->
  Libc.nul_free MCE_KBD_SLIDE_OPEN ->
  Libc.nul_free MCE_LENS_COVER_OPEN ->
  cover_policy MCE_LID_COVER_OPEN lid_cover_pipe data
    (emitted (translate LidCover data bytes_read m))
  /\ cover_policy MCE_KBD_SLIDE_OPEN keyboard_slide_pipe data
       (emitted (translate KeyboardSlide data bytes_read m))
  /\ cover_policy MCE_LENS_COVER_OPEN lens_cover_pipe data
       (emitted (translate LensCover data bytes_read m))
  /\ (In activity (emitted (translate UsbCable data bytes_read m))
      /\ exists u,
          emitted (translate UsbCable data bytes_read m)
          = [activity;
             Ev_execute_datapipe usb_cable_pipe (of_usb_cable_state u)])
  /\ (In activity (emitted (translate CameraLaunchButton data bytes_read m))
      /\ exists b,
          emitted (translate CameraLaunchButton data bytes_read m)
          = [activity;
             Ev_execute_datapipe camera_button_pipe
               (of_camera_button_state b)])
  /\ (exists c,
         emitted (translate ProximitySensor data bytes_read m)
         = [Ev_execute_datapipe proximity_sensor_pipe (of_cover_state c)])
  /\ ~ In activity (emitted (translate ProximitySensor data bytes_read m))
  /\ (emitted (translate LockKey data bytes_read m)
      = [Ev_execute_datapipe lockkey_pipe (of_gint 0)]
      \/ emitted (translate LockKey data bytes_read m)
         = [Ev_execute_datapipe lockkey_pipe (of_gint 1)])
  /\ ~ In activity (emitted (translate LockKey data bytes_read m))
  /\ emitted (translate CameraFocusButton data bytes_read m) = [activity]
  /\ emitted (translate MmcCover0 data bytes_read m) = [activity]
  /\ emitted (translate MmcCover1 data bytes_read m) = [activity]
  /\ emitted (translate BatteryCover data bytes_read m) = [activity].
Proof.
  intros Hlid Hkbd Hlens.
  callback_trace.
  split; [now apply cover_policy_holds|].
  split; [now apply cover_policy_holds|].
  split; [now apply cover_policy_holds|].
  split; [split; [now left|eexists; reflexivity]|].
  split; [split; [now left|eexists; reflexivity]|].
  split; [eexists; reflexivity|].
  split; [intros [H|[]]; discriminate H|].
  split; [split_on_match; [right|left]; reflexivity|].
  split; [intros [H|[]]; discriminate H|].
  repeat split.
Qed.

Lemma activity_first_pair p v :
  p <> device_inactive_pipe ->
  activity_first p [activity; Ev_execute_datapipe p v].
Proof.
  intros Hne w _ Hin. cbn in Hin.
  destruct Hin as [Hin|[Hin|[]]].
  - exfalso. injection Hin as <- _. now apply Hne.
  - injection Hin as <-. rewrite !precedes_pair. split; [tauto|].
    intros [H _]. injection H as -> _. now apply Hne.
Qed.

Lemma activity_first_single p v :
  p <> device_inactive_pipe ->
  activity_first p [Ev_execute_datapipe p v].
Proof.
  intros Hne w Hact _. cbn in Hact.
  destruct Hact as [Hact|[]]. injection Hact as -> _. now elim Hne.
Qed.

Lemma cover_open_after_activity p data lit :
  open_after_activity p
    (if matches data lit
     then [activity; Ev_execute_datapipe p (of_cover_state COVER_OPEN)]
     else [Ev_execute_datapipe p (of_cover_state COVER_CLOSED)]).
Proof.
  unfold open_after_activity. destruct (matches data lit); cbn.
  - intros _. now apply precedes_pair.
  - intros [H|[]]. discriminate H.
Qed.

(** C10.  For every payload: the USB cable and camera launch button
    translators issue both the activity signal and their typed state, the
    activity signal first; the lid cover, keyboard slide and lens cover
    translators, when they classify the payload as open, issue the activity
    signal before the open state; and in none of the five does a
    publication on the switch's own channel come before the activity
    signal. *)
Theorem activity_precedes_state
  (data : string) (bytes_read : N) (m : machine) :
  (In activity (emitted (translate UsbCable data bytes_read m))
   /\ (exists u,
          In (Ev_execute_datapipe usb_cable_pipe (of_usb_cable_state u))
             (emitted (translate UsbCable data bytes_read m)))
   /\ activity_first usb_cable_pipe
        (emitted (translate UsbCable data bytes_read m)))
  /\ (In activity (emitted (translate CameraLaunchButton data bytes_read m))
      /\ (exists b,
             In (Ev_execute_datapipe camera_button_pipe
                   (of_camera_button_state b))
                (emitted (translate CameraLaunchButton data bytes_read m)))
      /\ activity_first camera_button_pipe
           (emitted (translate CameraLaunchButton data bytes_read m)))
  /\ (activity_first lid_cover_pipe
        (emitted (translate LidCover data bytes_read m))
      /\ open_after_activity lid_cover_pipe
           (emitted (translate LidCover data bytes_read m)))
  /\ (activity_first keyboard_slide_pipe
        (emitted (translate KeyboardSlide data bytes_read m))
      /\ open_after_activity keyboard_slide_pipe
           (emitted (translate KeyboardSlide data bytes_read m)))
  /\ (activity_first lens_cover_pipe
        (emitted (translate LensCover data bytes_read m))
      /\ open_after_activity lens_cover_pipe
           (emitted (translate LensCover data bytes_read m))).
Proof.
  callback_trace.
  repeat match goal with |- _ /\ _ => split end;
    try (now left);
    try (eexists; right; left; reflexivity);
    try apply cover_open_after_activity;
    try split_on_match;
    solve [apply activity_first_pair; discriminate
          |apply activity_first_single; discriminate].
Qed.

End ActivityPolicy.

(** The policy at work on the payload ["open"], the open literal of the
    three covers in the sample configuration: the lid cover translator
    publishes the activity signal and then the open state. *)
Lemma activity_policy_witness :
  Libc.nul_free (@MCE_LID_COVER_OPEN sample_header)
  /\ Libc.nul_free (@MCE_KBD_SLIDE_OPEN sample_header)
  /\ Libc.nul_free (@MCE_LENS_COVER_OPEN sample_header)
  /\ cover_policy "open" lid_cover_pipe "open"
       (emitted (@translate sample_header LidCover "open" 4 sample_boot)).
Proof.
  split; [reflexivity|]. split; [reflexivity|]. split; [reflexivity|].
  exact (proj1 (@activity_policy sample_header "open"%string 4%N sample_boot
                  eq_refl eq_refl eq_refl)).
Defined.

(** A payload that does not begin with the literal: closed, and no
    activity signal. *)
Example lid_cover_closed_is_silent :
  cover_policy "open" lid_cover_pipe "closed"
    (emitted (@translate sample_header LidCover "closed" 6 sample_boot))
  /\ emitted (@translate sample_header LidCover "closed" 6 sample_boot)
     = [Ev_execute_datapipe lid_cover_pipe (of_cover_state COVER_CLOSED)].
Proof.
  split; [|reflexivity].
  exact (cover_policy_holds lid_cover_pipe "closed"%string "open"%string
           eq_refl).
Qed.

(** ** The proximity interlock *)

Section ProximityInterlock.

Context {hdr : mce_h}.

(** The condition tested by [update_proximity_monitor] is "sensor
    needed". *)
Lemma needed_test_iff call alarm :
  (call =? CALL_STATE_RINGING) || (call =? CALL_STATE_ACTIVE)
  || (alarm =? MCE_ALARM_UI_VISIBLE_INT32)
  || (alarm =? MCE_ALARM_UI_RINGING_INT32) = true
  <-> sensor_needed call alarm.
Proof.
  unfold sensor_needed. rewrite !orb_true_iff, !Z.eqb_eq. tauto.
Qed.

(** What the synchronous refresh does, by the outcome of the read. *)
Lemma update_proximity_sensor_state_run env m :
  update_proximity_sensor_state env m =
  match file_content env MCE_PROXIMITY_SENSOR_STATE_PATH with
  | Some tmp =>
      let state :=
        of_cover_state
          (if matches tmp MCE_PROXIMITY_SENSOR_OPEN
           then COVER_OPEN else COVER_CLOSED) in
      (false,
       mk_machine (vars m)
         (fun q => if datapipe_eq_dec proximity_sensor_pipe q
                   then state else cached m q),
       [Ev_read_string_from_file MCE_PROXIMITY_SENSOR_STATE_PATH;
        Ev_execute_datapipe proximity_sensor_pipe state])
  | None =>
      (false, m, [Ev_read_string_from_file MCE_PROXIMITY_SENSOR_STATE_PATH])
  end.
Proof.
  unfold update_proximity_sensor_state, bind, mce_read_string_from_file.
  now destruct (file_content env MCE_PROXIMITY_SENSOR_STATE_PATH).
Qed.

Lemma update_proximity_sensor_state_vars env m :
  vars (final (update_proximity_sensor_state env m)) = vars m.
Proof.
  rewrite update_proximity_sensor_state_run.
  now destruct (file_content env MCE_PROXIMITY_SENSOR_STATE_PATH).
Qed.

Lemma update_proximity_sensor_state_no_write env m :
  control_writes (emitted (update_proximity_sensor_state env m)) = [].
Proof.
  rewrite update_proximity_sensor_state_run.
  now destruct (file_content env MCE_PROXIMITY_SENSOR_STATE_PATH).
Qed.

(** The refresh never reports success: its status is [FALSE] after a failed
    read, which publishes nothing and leaves the machine as it was, and
    [FALSE] again after a successful read and publication. *)
Lemma update_proximity_sensor_state_status env m :
  result (update_proximity_sensor_state env m) = false
  /\ (file_content env MCE_PROXIMITY_SENSOR_STATE_PATH = None ->
      final (update_proximity_sensor_state env m) = m
      /\ emitted (update_proximity_sensor_state env m)
         = [Ev_read_string_from_file MCE_PROXIMITY_SENSOR_STATE_PATH])
  /\ (forall tmp,
         file_content env MCE_PROXIMITY_SENSOR_STATE_PATH = Some tmp ->
         exists c,
           emitted (update_proximity_sensor_state env m)
           = [Ev_read_string_from_file MCE_PROXIMITY_SENSOR_STATE_PATH;
              Ev_execute_datapipe proximity_sensor_pipe (of_cover_state c)]
           /\ cached (final (update_proximity_sensor_state env m))
                proximity_sensor_pipe = of_cover_state c).
Proof.
  rewrite update_proximity_sensor_state_run.
  destruct (file_content env MCE_PROXIMITY_SENSOR_STATE_PATH) as [tmp|].
  - split; [reflexivity|]. split; [discriminate|].
    intros tmp' _. eexists. split; reflexivity.
  - split; [reflexivity|]. split; [now intros _|discriminate].
Qed.

(** How [update_proximity_monitor] runs, case by case. *)
Lemma update_proximity_monitor_run env m :
  update_proximity_monitor env m =
  if proximity_sensor_disable_exists (vars m)
  then
    if (call_state (vars m) =? CALL_STATE_RINGING)
       || (call_state (vars m) =? CALL_STATE_ACTIVE)
       || (alarm_ui_state (vars m) =? MCE_ALARM_UI_VISIBLE_INT32)
       || (alarm_ui_state (vars m) =? MCE_ALARM_UI_RINGING_INT32)
    then
      (tt, final (update_proximity_sensor_state env m),
       Ev_write_string_to_file MCE_PROXIMITY_SENSOR_DISABLE_PATH "0"
       :: emitted (update_proximity_sensor_state env m))
    else
      (tt, m, [Ev_write_string_to_file MCE_PROXIMITY_SENSOR_DISABLE_PATH "1"])
  else (tt, m, []).
Proof.
  unfold update_proximity_monitor, bind, load. cbn.
  destruct (proximity_sensor_disable_exists (vars m)); [|reflexivity]. cbn.
  match goal with |- context [if ?b then _ else _] => destruct b end;
    [|reflexivity].
  unfold update_proximity_sensor_state, bind, mce_read_string_from_file.
  cbn. now destruct (file_content env MCE_PROXIMITY_SENSOR_STATE_PATH).
Qed.

Lemma update_proximity_monitor_vars env m :
  vars (final (update_proximity_monitor env m)) = vars m.
Proof.
  rewrite update_proximity_monitor_run.
  destruct (proximity_sensor_disable_exists (vars m)); [|reflexivity].
  match goal with |- context [if ?b then _ else _] => destruct b end;
    [|reflexivity].
  apply update_proximity_sensor_state_vars.
Qed.

(** The command sent to the control surface is a function of the
    capability flag and of the two cached states. *)
Lemma update_proximity_monitor_writes env m :
  control_writes (emitted (update_proximity_monitor env m)) =
  if proximity_sensor_disable_exists (vars m)
  then
    [(MCE_PROXIMITY_SENSOR_DISABLE_PATH,
      if (call_state (vars m) =? CALL_STATE_RINGING)
         || (call_state (vars m) =? CALL_STATE_ACTIVE)
         || (alarm_ui_state (vars m) =? MCE_ALARM_UI_VISIBLE_INT32)
         || (alarm_ui_state (vars m) =? MCE_ALARM_UI_RINGING_INT32)
      then "0"%string else "1"%string)]
  else [].
Proof.
  rewrite update_proximity_monitor_run.
  destruct (proximity_sensor_disable_exists (vars m)); [|reflexivity].
  match goal with |- context [if ?b then _ else _] => destruct b end;
    [|reflexivity].
  cbn [emitted snd control_writes].
  now rewrite update_proximity_sensor_state_no_write.
Qed.

Lemma update_proximity_monitor_writes_ext env env' m m' :
  proximity_sensor_disable_exists (vars m')
  = proximity_sensor_disable_exists (vars m) ->
  call_state (vars m') = call_state (vars m) ->
  alarm_ui_state (vars m') = alarm_ui_state (vars m) ->
  control_writes (emitted (update_proximity_monitor env' m'))
  = control_writes (emitted (update_proximity_monitor env m)).
Proof.
  intros Hf Hc Ha. rewrite !update_proximity_monitor_writes.
  now rewrite Hf, Hc, Ha.
Qed.

(** Both triggers store the delivered value and recompute. *)
Lemma call_state_trigger_run env data m :
  call_state_trigger env data m =
  update_proximity_monitor env
    (mk_machine (set_call_state data (vars m)) (cached m)).
Proof.
  unfold call_state_trigger, bind, store.
  now destruct (update_proximity_monitor env _) as [[[] m2] t2].
Qed.

Lemma alarm_ui_state_trigger_run env data m :
  alarm_ui_state_trigger env data m =
  update_proximity_monitor env
    (mk_machine (set_alarm_ui_state data (vars m)) (cached m)).
Proof.
  unfold alarm_ui_state_trigger, bind, store.
  now destruct (update_proximity_monitor env _) as [[[] m2] t2].
Qed.

Lemma call_state_trigger_vars env data m :
  vars (final (call_state_trigger env data m))
  = set_call_state data (vars m).
Proof.
  now rewrite call_state_trigger_run, update_proximity_monitor_vars.
Qed.

Lemma alarm_ui_state_trigger_vars env data m :
  vars (final (alarm_ui_state_trigger env data m))
  = set_alarm_ui_state data (vars m).
Proof.
  now rewrite alarm_ui_state_trigger_run, update_proximity_monitor_vars.
Qed.

Lemma set_call_state_same v : set_call_state (call_state v) v = v.
Proof. now destruct v. Qed.

Lemma set_alarm_ui_state_same v :
  set_alarm_ui_state (alarm_ui_state v) v = v.
Proof. now destruct v. Qed.

(** C1.  For every machine state: when the proximity-disable control exists
    and the sensor is needed (the cached call state is ringing or active, or
    the cached alarm state is visible or ringing), recomputing the interlock
    writes "0" to the control surface and then does exactly what the
    synchronous refresh does; when the control exists and the sensor is not
    needed, it writes "1" and does nothing else; when the control does not
    exist, it does nothing at all. *)
Theorem update_proximity_monitor_cases (env : environment) (m : machine) :
  (proximity_sensor_disable_exists (vars m) = true ->
   sensor_needed (call_state (vars m)) (alarm_ui_state (vars m)) ->
   emitted (update_proximity_monitor env m)
   = Ev_write_string_to_file MCE_PROXIMITY_SENSOR_DISABLE_PATH "0"
     :: emitted (update_proximity_sensor_state env m)
   /\ final (update_proximity_monitor env m)
      = final (update_proximity_sensor_state env m))
  /\ (proximity_sensor_disable_exists (vars m) = true ->
      ~ sensor_needed (call_state (vars m)) (alarm_ui_state (vars m)) ->
      emitted (update_proximity_monitor env m)
      = [Ev_write_string_to_file MCE_PROXIMITY_SENSOR_DISABLE_PATH "1"]
      /\ final (update_proximity_monitor env m) = m)
  /\ (proximity_sensor_disable_exists (vars m) = false ->
      emitted (update_proximity_monitor env m) = []
      /\ final (update_proximity_monitor env m) = m).
Proof.
  rewrite update_proximity_monitor_run.
  pose proof (needed_test_iff (call_state (vars m)) (alarm_ui_state (vars m)))
    as Hn.
  destruct (proximity_sensor_disable_exists (vars m)).
  - match type of Hn with
    | ?b = true <-> _ => destruct b
    end.
    + split; [now intros _ _|]. split; [|discriminate].
      intros _ Hnot. exfalso. now apply Hnot, Hn.
    + split; [|split; [now intros _ _|discriminate]].
      intros _ Hneed. apply Hn in Hneed. discriminate.
  - split; [discriminate|]. split; [discriminate|]. now intros _.
Qed.

End ProximityInterlock.

(** ** Recomputing with unchanged inputs *)

Section Idempotence.

Context {hdr : mce_h}.

Lemma set_call_state_twice c v :
  set_call_state c (set_call_state c v) = set_call_state c v.
Proof. reflexivity. Qed.

Lemma set_alarm_ui_state_twice a v :
  set_alarm_ui_state a (set_alarm_ui_state a v) = set_alarm_ui_state a v.
Proof. reflexivity. Qed.

(** C7.  Idempotence of the proximity interlock.  Delivering a call state
    (or an alarm state) a second time leaves the statics as the first
    delivery left them and sends the same command to the control surface;
    delivering the value that is already cached leaves the statics unchanged
    and sends the command a plain recomputation sends; and the command is
    determined by the capability flag, the cached call state and the cached
    alarm state alone, whatever the sensor reads in between. *)
Theorem proximity_interlock_idempotent
  (env env' : environment) (m : machine) (data : Z) :
  (vars (final (call_state_trigger env' data
                  (final (call_state_trigger env data m))))
   = vars (final (call_state_trigger env data m))
   /\ control_writes
        (emitted (call_state_trigger env' data
                    (final (call_state_trigger env data m))))
      = control_writes (emitted (call_state_trigger env data m)))
  /\ (vars (final (alarm_ui_state_trigger env' data
                     (final (alarm_ui_state_trigger env data m))))
      = vars (final (alarm_ui_state_trigger env data m))
      /\ control_writes
           (emitted (alarm_ui_state_trigger env' data
                       (final (alarm_ui_state_trigger env data m))))
         = control_writes (emitted (alarm_ui_state_trigger env data m)))
  /\ (vars (final (call_state_trigger env (call_state (vars m)) m)) = vars m
      /\ control_writes
           (emitted (call_state_trigger env (call_state (vars m)) m))
         = control_writes (emitted (update_proximity_monitor env' m)))
  /\ (vars (final (alarm_ui_state_trigger env (alarm_ui_state (vars m)) m))
      = vars m
      /\ control_writes
           (emitted (alarm_ui_state_trigger env (alarm_ui_state (vars m)) m))
         = control_writes (emitted (update_proximity_monitor env' m)))
  /\ (forall m',
         proximity_sensor_disable_exists (vars m')
         = proximity_sensor_disable_exists (vars m) ->
         call_state (vars m') = call_state (vars m) ->
         alarm_ui_state (vars m') = alarm_ui_state (vars m) ->
         control_writes (emitted (update_proximity_monitor env' m'))
         = control_writes (emitted (update_proximity_monitor env m))).
Proof.
  repeat match goal with |- _ /\ _ => split end.
  - rewrite !call_state_trigger_vars. apply set_call_state_twice.
  - rewrite (call_state_trigger_run env'), (call_state_trigger_run env).
    apply update_proximity_monitor_writes_ext;
      cbn [vars]; now rewrite update_proximity_monitor_vars.
  - rewrite !alarm_ui_state_trigger_vars. apply set_alarm_ui_state_twice.
  - rewrite (alarm_ui_state_trigger_run env'),
      (alarm_ui_state_trigger_run env).
    apply update_proximity_monitor_writes_ext;
      cbn [vars]; now rewrite update_proximity_monitor_vars.
  - rewrite call_state_trigger_vars. apply set_call_state_same.
  - rewrite call_state_trigger_run.
    apply update_proximity_monitor_writes_ext;
      cbn [vars]; now rewrite set_call_state_same.
  - rewrite alarm_ui_state_trigger_vars. apply set_alarm_ui_state_same.
  - rewrite alarm_ui_state_trigger_run.
    apply update_proximity_monitor_writes_ext;
      cbn [vars]; now rewrite set_alarm_ui_state_same.
  - intros m'. apply update_proximity_monitor_writes_ext.
Qed.

End Idempotence.

(** ** The camera-focus interlock *)

Section CameraFocusInterlock.

Context {hdr : mce_h}.

Lemma same_lock_bits_tklock s1 s2 :
  same_lock_bits s1 s2 -> tklock s1 = tklock s2.
Proof.
  intros H. unfold tklock. f_equal. f_equal.
  apply Z.bits_inj'. intros i _. rewrite !Z.land_spec.
  destruct (Z.testbit MCE_TKLOCK_SUBMODE i) eqn:E.
  - now rewrite (H i E).
  - now rewrite !andb_false_r.
Qed.

(** [submode_trigger] always ends by remembering the submode it was
    given, and touches nothing else. *)
Lemma submode_trigger_final s m :
  final (submode_trigger s m)
  = mk_machine (set_old_submode s (vars m)) (cached m).
Proof.
  unfold submode_trigger, bind, load, store. cbn.
  destruct (Z.land s MCE_TKLOCK_SUBMODE =? 0);
    destruct (Z.land (old_submode (vars m)) MCE_TKLOCK_SUBMODE =? 0);
    cbn; try reflexivity;
    destruct (cam_focus_disable_exists (vars m)); cbn; try reflexivity;
    now destruct (iomon_id (vars m) cam_focus_iomon_id).
Qed.

(** With the control present and the focus source open, the writes of
    one update are those of the edge it makes on the lock bit. *)
Lemma submode_trigger_emitted s m :
  cam_focus_disable_exists (vars m) = true ->
  iomon_id (vars m) cam_focus_iomon_id <> NULL ->
  emitted (submode_trigger s m)
  = match tklock (old_submode (vars m)), tklock s with
    | false, true => [focus_disable]
    | true, false => [focus_enable]
    | _, _ => []
    end.
Proof.
  intros Hflag Hid.
  unfold submode_trigger, bind, load, store, tklock. cbn.
  destruct (Z.land s MCE_TKLOCK_SUBMODE =? 0);
    destruct (Z.land (old_submode (vars m)) MCE_TKLOCK_SUBMODE =? 0);
    cbn; rewrite ?Hflag; try reflexivity.
  destruct (iomon_id (vars m) cam_focus_iomon_id); [reflexivity|now elim Hid].
Qed.

Lemma deliver_submodes_cons s rest m :
  emitted (deliver_submodes (s :: rest) m)
  = emitted (submode_trigger s m)
    ++ emitted (deliver_submodes rest (final (submode_trigger s m)))
  /\ final (deliver_submodes (s :: rest) m)
     = final (deliver_submodes rest (final (submode_trigger s m))).
Proof.
  cbn [deliver_submodes]. unfold bind.
  destruct (submode_trigger s m) as [[[] m1] t1]. cbn [final emitted fst snd].
  now destruct (deliver_submodes rest m1) as [[[] m2] t2].
Qed.

Lemma deliver_submodes_emitted updates :
  forall m,
    cam_focus_disable_exists (vars m) = true ->
    iomon_id (vars m) cam_focus_iomon_id <> NULL ->
    emitted (deliver_submodes updates m)
    = lock_edge_writes (tklock (old_submode (vars m))) updates.
Proof.
  induction updates as [|s rest IH]; intros m Hflag Hid; [reflexivity|].
  destruct (deliver_submodes_cons s rest m) as [-> _].
  rewrite (submode_trigger_emitted s m Hflag Hid).
  rewrite IH; rewrite submode_trigger_final; cbn [vars]; try assumption.
  cbn [set_old_submode old_submode lock_edge_writes].
  destruct (tklock (old_submode (vars m))) eqn:Eo;
    destruct (tklock s) eqn:Es; reflexivity.
Qed.

Lemma last_nonempty_default {A} (x : A) l d d' :
  last (x :: l) d = last (x :: l) d'.
Proof.
  revert x; induction l as [|y l IH]; intros x; [reflexivity|].
  change (last (y :: l) d = last (y :: l) d'). apply IH.
Qed.

Lemma deliver_submodes_final updates :
  forall m,
    final (deliver_submodes updates m)
    = mk_machine
        (set_old_submode (last updates (old_submode (vars m))) (vars m))
        (cached m).
Proof.
  induction updates as [|s rest IH]; intros m.
  - cbn. now destruct m as [[] ?].
  - destruct (deliver_submodes_cons s rest m) as [_ ->].
    rewrite IH, submode_trigger_final. cbn [vars cached].
    destruct rest as [|s' rest']; [reflexivity|].
    rewrite (last_nonempty_default s' rest' _ (old_submode (vars m))).
    reflexivity.
Qed.

(** C2.  With the camera-focus disable control present and the focus
    source open: an update that raises the lock bit writes "1" and nothing
    else, an update that clears it writes "0" and nothing else, an update
    that leaves the lock bit as it was (in particular one that changes only
    bits outside the lock mask) writes nothing; [old_submode] is the
    delivered submode after every update; over a run of updates the writes
    are exactly those of the edges of the lock bit, in order; and raising,
    clearing and raising the lock bit again gives exactly the three writes
    disable, enable, disable. *)
Theorem camera_focus_interlock_edges (m : machine) :
  cam_focus_disable_exists (vars m) = true ->
  iomon_id (vars m) cam_focus_iomon_id <> NULL ->
  (forall s,
      tklock (old_submode (vars m)) = false -> tklock s = true ->
      emitted (submode_trigger s m) = [focus_disable])
  /\ (forall s,
         tklock (old_submode (vars m)) = true -> tklock s = false ->
         emitted (submode_trigger s m) = [focus_enable])
  /\ (forall s,
         tklock s = tklock (old_submode (vars m)) ->
         emitted (submode_trigger s m) = [])
  /\ (forall s,
         same_lock_bits s (old_submode (vars m)) ->
         emitted (submode_trigger s m) = [])
  /\ (forall s,
         vars (final (submode_trigger s m)) = set_old_submode s (vars m))
  /\ (forall updates,
         emitted (deliver_submodes updates m)
         = lock_edge_writes (tklock (old_submode (vars m))) updates
         /\ vars (final (deliver_submodes updates m))
            = set_old_submode (last updates (old_submode (vars m))) (vars m))
  /\ (forall s1 s2 s3,
         tklock (old_submode (vars m)) = false ->
         tklock s1 = true -> tklock s2 = false -> tklock s3 = true ->
         emitted (deliver_submodes [s1; s2; s3] m)
         = [focus_disable; focus_enable; focus_disable]).
Proof.
  intros Hflag Hid.
  assert (Hquiet : forall s, tklock s = tklock (old_submode (vars m)) ->
                             emitted (submode_trigger s m) = []).
  { intros s Hs. rewrite (submode_trigger_emitted s m Hflag Hid), Hs.
    now destruct (tklock (old_submode (vars m))). }
  repeat match goal with |- _ /\ _ => split end.
  - intros s Ho Hs. now rewrite (submode_trigger_emitted s m Hflag Hid), Ho, Hs.
  - intros s Ho Hs. now rewrite (submode_trigger_emitted s m Hflag Hid), Ho, Hs.
  - exact Hquiet.
  - intros s Hs. now apply Hquiet, same_lock_bits_tklock.
  - intros s. now rewrite submode_trigger_final.
  - intros updates. split.
    + now apply deliver_submodes_emitted.
    + now rewrite deliver_submodes_final.
  - intros s1 s2 s3 Ho H1 H2 H3.
    rewrite (deliver_submodes_emitted _ m Hflag Hid), Ho.
    cbn [lock_edge_writes]. now rewrite H1, H2, H3.
Qed.

End CameraFocusInterlock.

(** Raising, clearing and raising the lock bit ([0b10]) once start-up has
    found the control and opened the focus source. *)
Lemma camera_focus_interlock_edges_witness :
  cam_focus_disable_exists (vars sample_running) = true
  /\ iomon_id (vars sample_running) cam_focus_iomon_id <> NULL
  /\ emitted (@deliver_submodes sample_header [2; 0; 2] sample_running)
     = [focus_disable; focus_enable; focus_disable].
Proof.
  split; [reflexivity|]. split; [discriminate|].
  destruct (@camera_focus_interlock_edges sample_header sample_running)
    as (_ & _ & _ & _ & _ & _ & H); [reflexivity|discriminate|].
  apply H; reflexivity.
Defined.

Example unrelated_bits_write_nothing :
  emitted (@deliver_submodes sample_header [1; 5; 4; 0] sample_running) = []
  /\ emitted (@deliver_submodes sample_header [2; 3; 7; 6] sample_running)
     = [focus_disable].
Proof. split; reflexivity. Qed.

(** ** Who writes which static *)

Section Frames.

Context {hdr : mce_h}.

Lemma mce_switches_exit_vars m :
  vars (final (mce_switches_exit m)) = vars m.
Proof. reflexivity. Qed.

Lemma set_call_state_frame c v :
  call_state (set_call_state c v) = c
  /\ alarm_ui_state (set_call_state c v) = alarm_ui_state v
  /\ old_submode (set_call_state c v) = old_submode v
  /\ iomon_id (set_call_state c v) = iomon_id v
  /\ capabilities (set_call_state c v) = capabilities v.
Proof. repeat split. Qed.

Lemma set_alarm_ui_state_frame a v :
  alarm_ui_state (set_alarm_ui_state a v) = a
  /\ call_state (set_alarm_ui_state a v) = call_state v
  /\ old_submode (set_alarm_ui_state a v) = old_submode v
  /\ iomon_id (set_alarm_ui_state a v) = iomon_id v
  /\ capabilities (set_alarm_ui_state a v) = capabilities v.
Proof. repeat split. Qed.

Lemma set_old_submode_frame s v :
  old_submode (set_old_submode s v) = s
  /\ call_state (set_old_submode s v) = call_state v
  /\ alarm_ui_state (set_old_submode s v) = alarm_ui_state v
  /\ iomon_id (set_old_submode s v) = iomon_id v
  /\ capabilities (set_old_submode s v) = capabilities v.
Proof. repeat split. Qed.

(** C9.  For every delivered update: [call_state_trigger] changes the
    cached call state and no other static, [alarm_ui_state_trigger] the
    cached alarm state and no other static, [submode_trigger] [old_submode]
    and no other static.  The capability flags and [has_flicker_key] are
    written by no trigger, no I/O monitor callback, neither of the two
    proximity helpers and not by [mce_switches_exit]: only
    [mce_switches_init] assigns them. *)
Theorem handlers_write_their_own_cache
  (env : environment) (data : Z) (m : machine) :
  (call_state (vars (final (call_state_trigger env data m))) = data
   /\ alarm_ui_state (vars (final (call_state_trigger env data m)))
      = alarm_ui_state (vars m)
   /\ old_submode (vars (final (call_state_trigger env data m)))
      = old_submode (vars m)
   /\ iomon_id (vars (final (call_state_trigger env data m)))
      = iomon_id (vars m)
   /\ capabilities (vars (final (call_state_trigger env data m)))
      = capabilities (vars m))
  /\ (alarm_ui_state (vars (final (alarm_ui_state_trigger env data m)))
      = data
      /\ call_state (vars (final (alarm_ui_state_trigger env data m)))
         = call_state (vars m)
      /\ old_submode (vars (final (alarm_ui_state_trigger env data m)))
         = old_submode (vars m)
      /\ iomon_id (vars (final (alarm_ui_state_trigger env data m)))
         = iomon_id (vars m)
      /\ capabilities (vars (final (alarm_ui_state_trigger env data m)))
         = capabilities (vars m))
  /\ (old_submode (vars (final (submode_trigger data m))) = data
      /\ call_state (vars (final (submode_trigger data m)))
         = call_state (vars m)
      /\ alarm_ui_state (vars (final (submode_trigger data m)))
         = alarm_ui_state (vars m)
      /\ iomon_id (vars (final (submode_trigger data m))) = iomon_id (vars m)
      /\ capabilities (vars (final (submode_trigger data m)))
         = capabilities (vars m))
  /\ (forall cb payload bytes_read,
         vars (final (run_callback cb payload bytes_read m)) = vars m)
  /\ vars (final (update_proximity_monitor env m)) = vars m
  /\ vars (final (update_proximity_sensor_state env m)) = vars m
  /\ vars (final (mce_switches_exit m)) = vars m.
Proof.
  split; [|split; [|split; [|split; [|split; [|split]]]]].
  - rewrite call_state_trigger_vars. apply set_call_state_frame.
  - rewrite alarm_ui_state_trigger_vars. apply set_alarm_ui_state_frame.
  - rewrite submode_trigger_final. cbn [vars]. apply set_old_submode_frame.
  - intros cb payload bytes_read. apply run_callback_vars.
  - apply update_proximity_monitor_vars.
  - apply update_proximity_sensor_state_vars.
  - apply mce_switches_exit_vars.
Qed.

End Frames.

(** ** Start-up *)

Section StartUp.

Context {hdr : mce_h}.

Ltac run_init env m :=
  unfold mce_switches_init, register, bind, load, store,
    update_proximity_monitor, update_proximity_sensor_state,
    mce_read_string_from_file, mce_register_io_monitor_string;
  cbn;
  destruct (proximity_sensor_disable_exists (vars m)); cbn;
  repeat match goal with
         | |- context [if ?b || _ then _ else _] => destruct b; cbn
         | |- context [if (?x =? ?y) then _ else _] =>
             destruct (x =? y); cbn
         end;
  destruct (file_content env MCE_PROXIMITY_SENSOR_STATE_PATH); cbn;
  destruct (monitor_handle env MCE_FLICKER_KEY_STATE_PATH); cbn.

Lemma mce_switches_init_result env m :
  result (mce_switches_init env m) = true.
Proof. run_init env m; reflexivity. Qed.

(** Start-up, step by step: everything before the interlock, the
    interlock on the machine as it is found at that point, the flicker key
    flag, the two probes, and [TRUE]. *)
Lemma mce_switches_init_run env m :
  mce_switches_init env m =
  (true,
   mk_machine
     (set_cam_focus_disable_exists
        (write_access env MCE_CAM_FOCUS_DISABLE_PATH)
        (set_proximity_sensor_disable_exists
           (write_access env MCE_PROXIMITY_SENSOR_DISABLE_PATH)
           (if negb (is_null (monitor_handle env MCE_FLICKER_KEY_STATE_PATH))
            then set_has_flicker_key true
                   (vars (final (update_proximity_monitor env
                                   (registered env m))))
            else vars (final (update_proximity_monitor env
                                (registered env m))))))
     (cached (final (update_proximity_monitor env (registered env m)))),
   registrations
   ++ emitted (update_proximity_monitor env (registered env m))
   ++ probes).
Proof. run_init env m; reflexivity. Qed.

Lemma registered_handles env m k :
  iomon_id (vars (registered env m)) (handle_of k)
  = monitor_handle env (state_path k).
Proof. now destruct k. Qed.

Lemma control_writes_app t1 t2 :
  control_writes (t1 ++ t2) = control_writes t1 ++ control_writes t2.
Proof.
  induction t1 as [|e t1 IH]; [reflexivity|].
  destruct e; cbn; now rewrite IH.
Qed.

(** The control-surface commands of start-up are those of the interlock,
    run on the statics as they were when [mce_switches_init] was entered. *)
Lemma mce_switches_init_writes env m :
  control_writes (emitted (mce_switches_init env m))
  = control_writes (emitted (update_proximity_monitor env m)).
Proof.
  assert (Hr : control_writes registrations = []) by reflexivity.
  assert (Hp : control_writes probes = []) by reflexivity.
  rewrite mce_switches_init_run. unfold emitted at 1. unfold snd.
  rewrite !control_writes_app, Hr, Hp, app_nil_l, app_nil_r.
  apply update_proximity_monitor_writes_ext; reflexivity.
Qed.

(** At process start the capability flag is still [FALSE] when the
    interlock runs, so start-up sends no command, whatever the probe finds
    afterwards. *)
Lemma mce_switches_init_at_boot env cache :
  control_writes (emitted (mce_switches_init env (boot cache))) = []
  /\ proximity_sensor_disable_exists
       (vars (final (mce_switches_init env (boot cache))))
     = write_access env MCE_PROXIMITY_SENSOR_DISABLE_PATH.
Proof.
  split.
  - now rewrite mce_switches_init_writes, update_proximity_monitor_writes.
  - rewrite mce_switches_init_run. reflexivity.
Qed.

(** C8.  For every outcome of the registrations, of the probes and of the
    sensor read, and from every state: [mce_switches_init] returns [TRUE];
    each of the eleven sources is registered with its callback and its
    handle, null or not, is stored; both probes are made and recorded; and
    [has_flicker_key] is assigned [TRUE] exactly when the lock key handle is
    not null, so that after a start from the initial statics it is [TRUE] if
    and only if that registration succeeded. *)
Theorem mce_switches_init_always_succeeds (env : environment) (m : machine) :
  result (mce_switches_init env m) = true
  /\ (forall k,
         In (Ev_register_io_monitor_string (state_path k) (callback_of k))
            (emitted (mce_switches_init env m))
         /\ iomon_id (vars (final (mce_switches_init env m))) (handle_of k)
            = monitor_handle env (state_path k))
  /\ (proximity_sensor_disable_exists (vars (final (mce_switches_init env m)))
      = write_access env MCE_PROXIMITY_SENSOR_DISABLE_PATH
      /\ cam_focus_disable_exists (vars (final (mce_switches_init env m)))
         = write_access env MCE_CAM_FOCUS_DISABLE_PATH)
  /\ has_flicker_key (vars (final (mce_switches_init env m)))
     = has_flicker_key (vars m)
       || negb (is_null (monitor_handle env MCE_FLICKER_KEY_STATE_PATH))
  /\ (forall cache,
         has_flicker_key (vars (final (mce_switches_init env (boot cache))))
         = true
         <-> monitor_handle env MCE_FLICKER_KEY_STATE_PATH <> NULL).
Proof.
  split; [apply mce_switches_init_result|].
  split; [|split; [|split]].
  - intros k. rewrite mce_switches_init_run. cbn [emitted final fst snd vars].
    split.
    + apply in_or_app. left. destruct k; cbn; tauto.
    + rewrite update_proximity_monitor_vars.
      destruct (is_null (monitor_handle env MCE_FLICKER_KEY_STATE_PATH));
        cbn; apply registered_handles.
  - rewrite mce_switches_init_run. split; reflexivity.
  - rewrite mce_switches_init_run. cbn [final fst snd vars].
    rewrite update_proximity_monitor_vars.
    destruct (monitor_handle env MCE_FLICKER_KEY_STATE_PATH); cbn.
    + now rewrite orb_true_r.
    + now rewrite orb_false_r.
  - intros cache. rewrite mce_switches_init_run. cbn [final fst snd vars].
    rewrite update_proximity_monitor_vars.
    destruct (monitor_handle env MCE_FLICKER_KEY_STATE_PATH); cbn.
    + split; [discriminate|reflexivity].
    + split; [discriminate|]. intros H. now elim H.
Qed.

End StartUp.

(** C6.  Start-up does not establish the state of the proximity sensor.
    From the initial statics, in an environment where the proximity-disable
    control is writable: once [mce_switches_init] has returned the
    capability flag is [TRUE] and the sensor is not needed, yet no command
    was sent to the control surface; the interlock ran while the flag was
    still [FALSE].  Recomputing the interlock afterwards sends "1". *)
Theorem mce_switches_init_sends_no_command :
  proximity_sensor_disable_exists (vars sample_running) = true
  /\ ~ @sensor_needed sample_header (call_state (vars sample_running))
        (alarm_ui_state (vars sample_running))
  /\ control_writes
       (emitted
          (@mce_switches_init sample_header sample_environment sample_boot))
     = []
  /\ control_writes
       (emitted
          (@update_proximity_monitor sample_header sample_environment
             sample_running))
     = [(MCE_PROXIMITY_SENSOR_DISABLE_PATH, "1"%string)].
Proof.
  split; [reflexivity|]. split; [|split; reflexivity].
  intros [[H|H]|[H|H]]; discriminate H.
Qed.

(** C5.  The refresh reports failure after a successful read.  With the
    sensor file reading ["open"], the state is republished as open and the
    status returned is [FALSE]. *)
Theorem update_proximity_sensor_state_reports_failure :
  file_content sample_environment MCE_PROXIMITY_SENSOR_STATE_PATH
  = Some "open"%string
  /\ emitted
       (@update_proximity_sensor_state sample_header sample_environment
          sample_running)
     = [Ev_read_string_from_file MCE_PROXIMITY_SENSOR_STATE_PATH;
        Ev_execute_datapipe proximity_sensor_pipe (of_cover_state COVER_OPEN)]
  /\ result
       (@update_proximity_sensor_state sample_header sample_environment
          sample_running)
     = false.
Proof. repeat split. Qed.

(** ** The scenarios of the description, run on the model *)

(** A call starts ringing while the control exists: "0" is written, then
    the sensor is read and republished. *)
Example ringing_enables_and_refreshes :
  emitted (@call_state_trigger sample_header sample_environment 1
             sample_running)
  = [Ev_write_string_to_file MCE_PROXIMITY_SENSOR_DISABLE_PATH "0";
     Ev_read_string_from_file MCE_PROXIMITY_SENSOR_STATE_PATH;
     Ev_execute_datapipe proximity_sensor_pipe (of_cover_state COVER_OPEN)].
Proof. reflexivity. Qed.

(** The call ends and no alarm is shown: "1" is written and the sensor is
    not read. *)
Example call_end_disables :
  emitted (@call_state_trigger sample_header sample_environment 0
             (final (@call_state_trigger sample_header sample_environment 2
                       sample_running)))
  = [Ev_write_string_to_file MCE_PROXIMITY_SENSOR_DISABLE_PATH "1"].
Proof. reflexivity. Qed.

(** Without the control surface the interlock is silent. *)
Example no_control_no_command :
  emitted (@call_state_trigger sample_header bare_environment 1
             (final (@mce_switches_init sample_header bare_environment
                       sample_boot)))
  = [].
Proof. reflexivity. Qed.

(** Start-up succeeds when nothing opens, and the flicker key is then
    reported absent. *)
Example bare_start_up :
  result (@mce_switches_init sample_header bare_environment sample_boot)
  = true
  /\ has_flicker_key
       (vars (final (@mce_switches_init sample_header bare_environment
                       sample_boot)))
     = false.
Proof. split; reflexivity. Qed.

(** ** Runs of triggers and callbacks *)

Section Runs.

Context {hdr : mce_h}.

Lemma run_cons d rest m :
  emitted (run (d :: rest) m)
  = emitted (deliver d m) ++ emitted (run rest (final (deliver d m)))
  /\ final (run (d :: rest) m) = final (run rest (final (deliver d m))).
Proof.
  cbn [run]. unfold bind.
  destruct (deliver d m) as [[[] m1] t1]. cbn [final emitted fst snd].
  now destruct (run rest m1) as [[[] m2] t2].
Qed.

Lemma deliver_payload cb data n m :
  emitted (deliver (Payload cb data n) m) = emitted (run_callback cb data n m)
  /\ final (deliver (Payload cb data n) m) = final (run_callback cb data n m).
Proof.
  cbn [deliver]. unfold bind, ret.
  destruct (run_callback cb data n m) as [[b m1] t1]. cbn.
  now rewrite app_nil_r.
Qed.

(** What one update does to the lock interlock, in every state. *)
Lemma submode_trigger_emitted_general s m :
  emitted (submode_trigger s m)
  = match tklock (old_submode (vars m)), tklock s with
    | false, true =>
        if cam_focus_disable_exists (vars m)
           && negb (is_null (iomon_id (vars m) cam_focus_iomon_id))
        then [focus_disable] else []
    | true, false =>
        if cam_focus_disable_exists (vars m) then [focus_enable] else []
    | _, _ => []
    end.
Proof.
  unfold submode_trigger, bind, load, store, tklock. cbn.
  destruct (Z.land s MCE_TKLOCK_SUBMODE =? 0);
    destruct (Z.land (old_submode (vars m)) MCE_TKLOCK_SUBMODE =? 0);
    cbn; try reflexivity;
    destruct (cam_focus_disable_exists (vars m)); cbn; try reflexivity.
  now destruct (iomon_id (vars m) cam_focus_iomon_id).
Qed.

Lemma deliver_vars d m :
  vars (final (deliver d m))
  = match d with
    | Call_state_update _ data => set_call_state data (vars m)
    | Alarm_ui_state_update _ data => set_alarm_ui_state data (vars m)
    | Submode_update data => set_old_submode data (vars m)
    | Payload _ _ _ => vars m
    end.
Proof.
  destruct d as [env data|env data|data|cb data n].
  - apply call_state_trigger_vars.
  - apply alarm_ui_state_trigger_vars.
  - cbn [deliver]. now rewrite submode_trigger_final.
  - destruct (deliver_payload cb data n m) as [_ ->]. apply run_callback_vars.
Qed.

Lemma run_callback_events cb data n m :
  Forall handler_event (emitted (run_callback cb data n m)).
Proof.
  destruct cb; cbn [run_callback];
    rewrite ?lid_cover_trace, ?kbd_slide_trace, ?lens_cover_trace,
      ?proximity_sensor_trace, ?usb_cable_trace, ?camera_launch_button_trace,
      ?lockkey_trace, ?generic_activity_trace;
    try match goal with
        | |- context [if matches ?d ?l then [_; _] else _] =>
            destruct (matches d l)
        end;
    repeat constructor; discriminate.
Qed.

Lemma update_proximity_monitor_events env m :
  Forall handler_event (emitted (update_proximity_monitor env m)).
Proof.
  rewrite update_proximity_monitor_run.
  destruct (proximity_sensor_disable_exists (vars m)); [|constructor].
  match goal with |- context [if ?b then _ else _] => destruct b end.
  - rewrite update_proximity_sensor_state_run.
    destruct (file_content env MCE_PROXIMITY_SENSOR_STATE_PATH);
      cbn; repeat constructor; solve [discriminate|now left|now right].
  - cbn. repeat constructor; solve [now left|now right].
Qed.

Lemma deliver_events d m : Forall handler_event (emitted (deliver d m)).
Proof.
  destruct d as [env data|env data|data|cb data n]; cbn [deliver].
  - rewrite call_state_trigger_run. apply update_proximity_monitor_events.
  - rewrite alarm_ui_state_trigger_run. apply update_proximity_monitor_events.
  - rewrite submode_trigger_emitted_general.
    destruct (tklock (old_submode (vars m))); destruct (tklock data);
      try constructor;
      match goal with |- context [if ?b then _ else _] => destruct b end;
      repeat constructor; solve [now left|now right].
  - change (Forall handler_event (emitted (deliver (Payload cb data n) m))).
    destruct (deliver_payload cb data n m) as [-> _].
    apply run_callback_events.
Qed.

(** X1.  In every run of triggers and callbacks, from every state, each
    event is a publication on a channel other than the three the file
    listens to, a "0" or "1" written to one of the two control surfaces, or
    a read of the proximity sensor: no trigger or callback registers or
    releases a source, adds or removes a trigger, probes a path, or
    publishes on the call state, alarm state or submode channels. *)
Theorem run_events_are_handler_events (ds : list delivery) (m : machine) :
  Forall handler_event (emitted (run ds m)).
Proof.
  revert m; induction ds as [|d rest IH]; intros m; [constructor|].
  destruct (run_cons d rest m) as [-> _].
  apply Forall_app. split; [apply deliver_events|apply IH].
Qed.

Lemma run_vars ds :
  forall m,
    vars (final (run ds m))
    = mk_statics (iomon_id (vars m)) (cam_focus_disable_exists (vars m))
        (proximity_sensor_disable_exists (vars m))
        (last_call_state ds (call_state (vars m)))
        (last_alarm_ui_state ds (alarm_ui_state (vars m)))
        (has_flicker_key (vars m))
        (last_submode ds (old_submode (vars m))).
Proof.
  induction ds as [|d rest IH]; intros m.
  - cbn. now destruct (vars m).
  - destruct (run_cons d rest m) as [_ ->].
    rewrite IH, deliver_vars. now destruct d.
Qed.

(** X2.  After every run, from every state: the cached call state, alarm
    state and [old_submode] are the values most recently delivered to their
    triggers (the values found at the start when none was delivered), and
    the handles, both capability flags and [has_flicker_key] are as they
    were at the start. *)
Theorem run_caches_track_deliveries (ds : list delivery) (m : machine) :
  call_state (vars (final (run ds m)))
  = last_call_state ds (call_state (vars m))
  /\ alarm_ui_state (vars (final (run ds m)))
     = last_alarm_ui_state ds (alarm_ui_state (vars m))
  /\ old_submode (vars (final (run ds m)))
     = last_submode ds (old_submode (vars m))
  /\ iomon_id (vars (final (run ds m))) = iomon_id (vars m)
  /\ capabilities (vars (final (run ds m))) = capabilities (vars m).
Proof. rewrite run_vars. repeat split. Qed.

Lemma last_proximity_command_app t1 t2 :
  last_proximity_command (t1 ++ t2)
  = match last_proximity_command t2 with
    | Some c => Some c
    | None => last_proximity_command t1
    end.
Proof.
  induction t1 as [|e t1 IH]; cbn.
  - now destruct (last_proximity_command t2).
  - rewrite IH. now destruct (last_proximity_command t2).
Qed.

Lemma run_callback_no_write cb data n m :
  control_writes (emitted (run_callback cb data n m)) = []
  /\ last_proximity_command (emitted (run_callback cb data n m)) = None.
Proof.
  destruct cb; cbn [run_callback];
    rewrite ?lid_cover_trace, ?kbd_slide_trace, ?lens_cover_trace,
      ?proximity_sensor_trace, ?usb_cable_trace, ?camera_launch_button_trace,
      ?lockkey_trace, ?generic_activity_trace;
    try match goal with
        | |- context [if matches ?d ?l then [_; _] else _] =>
            destruct (matches d l)
        end;
    split; reflexivity.
Qed.

Lemma submode_trigger_no_proximity_command s m :
  last_proximity_command (emitted (submode_trigger s m)) = None.
Proof.
  rewrite submode_trigger_emitted_general.
  destruct (tklock (old_submode (vars m))); destruct (tklock s);
    try reflexivity;
    match goal with |- context [if ?b then _ else _] => now destruct b end.
Qed.

(** With the control present the interlock always ends up having written
    the command that fits the cached states; without it, none. *)
Lemma update_proximity_monitor_last_command env m :
  if proximity_sensor_disable_exists (vars m)
  then exists c,
      last_proximity_command (emitted (update_proximity_monitor env m))
      = Some c
      /\ ((c = "0"%string
           /\ sensor_needed (call_state (vars m)) (alarm_ui_state (vars m)))
          \/ (c = "1"%string
              /\ ~ sensor_needed (call_state (vars m))
                    (alarm_ui_state (vars m))))
  else last_proximity_command (emitted (update_proximity_monitor env m))
       = None.
Proof.
  rewrite update_proximity_monitor_run.
  pose proof (needed_test_iff (call_state (vars m)) (alarm_ui_state (vars m)))
    as Hn.
  destruct (proximity_sensor_disable_exists (vars m)); [|reflexivity].
  match type of Hn with ?b = true <-> _ => destruct b end.
  - exists "0"%string. split; [|left; split; [reflexivity|now apply Hn]].
    rewrite update_proximity_sensor_state_run.
    now destruct (file_content env MCE_PROXIMITY_SENSOR_STATE_PATH).
  - exists "1"%string. split; [reflexivity|].
    right. split; [reflexivity|]. intros H. apply Hn in H. discriminate.
Qed.

(** A delivery that sends no proximity command although the control is
    present has changed neither proximity cache. *)
Lemma deliver_quiet d m :
  proximity_sensor_disable_exists (vars m) = true ->
  last_proximity_command (emitted (deliver d m)) = None ->
  call_state (vars (final (deliver d m))) = call_state (vars m)
  /\ alarm_ui_state (vars (final (deliver d m))) = alarm_ui_state (vars m).
Proof.
  intros Hflag Hnone. rewrite deliver_vars.
  destruct d as [env data|env data|data|cb data n]; try (split; reflexivity);
    exfalso; cbn [deliver] in Hnone.
  - rewrite call_state_trigger_run in Hnone.
    match type of Hnone with
    | context [update_proximity_monitor ?e ?x] =>
        pose proof (update_proximity_monitor_last_command e x) as Hlast
    end.
    cbn [vars set_call_state proximity_sensor_disable_exists] in Hlast.
    rewrite Hflag in Hlast. destruct Hlast as (c & Hc & _). congruence.
  - rewrite alarm_ui_state_trigger_run in Hnone.
    match type of Hnone with
    | context [update_proximity_monitor ?e ?x] =>
        pose proof (update_proximity_monitor_last_command e x) as Hlast
    end.
    cbn [vars set_alarm_ui_state proximity_sensor_disable_exists] in Hlast.
    rewrite Hflag in Hlast. destruct Hlast as (c & Hc & _). congruence.
Qed.

Lemma run_quiet ds :
  forall m,
    proximity_sensor_disable_exists (vars m) = true ->
    last_proximity_command (emitted (run ds m)) = None ->
    call_state (vars (final (run ds m))) = call_state (vars m)
    /\ alarm_ui_state (vars (final (run ds m))) = alarm_ui_state (vars m).
Proof.
  induction ds as [|d rest IH]; intros m Hflag Hnone; [now split|].
  destruct (run_cons d rest m) as [Ht Hf]. rewrite Ht in Hnone. rewrite Hf.
  rewrite last_proximity_command_app in Hnone.
  destruct (last_proximity_command (emitted (run rest (final (deliver d m)))))
    eqn:Hrest; [discriminate|].
  destruct (deliver_quiet d m Hflag Hnone) as [Hc Ha].
  destruct (IH (final (deliver d m))) as [Hc' Ha']; [|assumption|].
  - rewrite deliver_vars. now destruct d.
  - split; congruence.
Qed.

Lemma deliver_last_command d m c :
  last_proximity_command (emitted (deliver d m)) = Some c ->
  proximity_sensor_disable_exists (vars m) = true
  /\ ((c = "0"%string
       /\ sensor_needed (call_state (vars (final (deliver d m))))
            (alarm_ui_state (vars (final (deliver d m)))))
      \/ (c = "1"%string
          /\ ~ sensor_needed (call_state (vars (final (deliver d m))))
                (alarm_ui_state (vars (final (deliver d m)))))).
Proof.
  intros Hsome. rewrite deliver_vars.
  destruct d as [env data|env data|data|cb data n]; cbn [deliver] in Hsome.
  - rewrite call_state_trigger_run in Hsome.
    match type of Hsome with
    | context [update_proximity_monitor ?e ?x] =>
        pose proof (update_proximity_monitor_last_command e x) as H
    end.
    cbn [vars set_call_state proximity_sensor_disable_exists] in H.
    destruct (proximity_sensor_disable_exists (vars m)); [|congruence].
    destruct H as (c' & Hc' & H). split; [reflexivity|].
    assert (c' = c) by congruence. subst c'. exact H.
  - rewrite alarm_ui_state_trigger_run in Hsome.
    match type of Hsome with
    | context [update_proximity_monitor ?e ?x] =>
        pose proof (update_proximity_monitor_last_command e x) as H
    end.
    cbn [vars set_alarm_ui_state proximity_sensor_disable_exists] in H.
    destruct (proximity_sensor_disable_exists (vars m)); [|congruence].
    destruct H as (c' & Hc' & H). split; [reflexivity|].
    assert (c' = c) by congruence. subst c'. exact H.
  - rewrite submode_trigger_no_proximity_command in Hsome. discriminate.
  - change (last_proximity_command
              (emitted (deliver (Payload cb data n) m)) = Some c) in Hsome.
    destruct (deliver_payload cb data n m) as [Hp _]. rewrite Hp in Hsome.
    destruct (run_callback_no_write cb data n m) as [_ Hq].
    rewrite Hq in Hsome. discriminate.
Qed.

(** X3.  Convergence of the proximity interlock.  After every run of
    triggers and callbacks, from every state: if the run sent a command to
    the proximity control surface at all, the capability flag was set, and
    the last command sent is "0" when the sensor is needed by the call and
    alarm states cached at the end of the run and "1" when it is not. *)
Theorem proximity_command_tracks_cached_state
  (ds : list delivery) (m : machine) (c : string) :
  last_proximity_command (emitted (run ds m)) = Some c ->
  proximity_sensor_disable_exists (vars m) = true
  /\ ((c = "0"%string
       /\ sensor_needed (call_state (vars (final (run ds m))))
            (alarm_ui_state (vars (final (run ds m)))))
      \/ (c = "1"%string
          /\ ~ sensor_needed (call_state (vars (final (run ds m))))
                (alarm_ui_state (vars (final (run ds m)))))).
Proof.
  revert m; induction ds as [|d rest IH]; intros m Hsome; [discriminate|].
  destruct (run_cons d rest m) as [Ht Hf]. rewrite Ht in Hsome. rewrite Hf.
  rewrite last_proximity_command_app in Hsome.
  destruct (last_proximity_command (emitted (run rest (final (deliver d m)))))
    as [c'|] eqn:Hrest.
  - injection Hsome as ->.
    destruct (IH _ Hrest) as [Hflag H]. split; [|exact H].
    rewrite deliver_vars in Hflag. now destruct d.
  - destruct (deliver_last_command d m c Hsome) as [Hflag H].
    split; [exact Hflag|].
    destruct (run_quiet rest (final (deliver d m))) as [Hc Ha];
      [rewrite deliver_vars; now destruct d|exact Hrest|].
    now rewrite Hc, Ha.
Qed.

Lemma deliver_gated d m f s :
  In (f, s) (control_writes (emitted (deliver d m))) ->
  (f = MCE_PROXIMITY_SENSOR_DISABLE_PATH
   /\ proximity_sensor_disable_exists (vars m) = true)
  \/ (f = MCE_CAM_FOCUS_DISABLE_PATH
      /\ cam_focus_disable_exists (vars m) = true).
Proof.
  destruct d as [env data|env data|data|cb data n]; cbn [deliver].
  - rewrite call_state_trigger_run, update_proximity_monitor_writes.
    cbn [vars set_call_state proximity_sensor_disable_exists].
    destruct (proximity_sensor_disable_exists (vars m)); [|intros []].
    intros [H|[]]. injection H as <- _. now left.
  - rewrite alarm_ui_state_trigger_run, update_proximity_monitor_writes.
    cbn [vars set_alarm_ui_state proximity_sensor_disable_exists].
    destruct (proximity_sensor_disable_exists (vars m)); [|intros []].
    intros [H|[]]. injection H as <- _. now left.
  - rewrite submode_trigger_emitted_general. intros Hin. right.
    destruct (tklock (old_submode (vars m))); destruct (tklock data);
      cbn in Hin; try contradiction;
      destruct (cam_focus_disable_exists (vars m));
      cbn in Hin; try contradiction;
      try (destruct (is_null (iomon_id (vars m) cam_focus_iomon_id));
           cbn in Hin; try contradiction);
      destruct Hin as [Hin|[]]; injection Hin as <- _; now split.
  - destruct (deliver_payload cb data n m) as [Hp _].
    cbn [deliver] in Hp. rewrite Hp.
    destruct (run_callback_no_write cb data n m) as [-> _]. intros [].
Qed.

(** X4.  Capability gating.  In every run, from every state, a command
    reaches the proximity control surface only if
    [proximity_sensor_disable_exists] is set and the camera focus control
    surface only if [cam_focus_disable_exists] is set; no other path is ever
    written. *)
Theorem control_writes_are_gated
  (ds : list delivery) (m : machine) (f : file_path) (s : string) :
  In (f, s) (control_writes (emitted (run ds m))) ->
  (f = MCE_PROXIMITY_SENSOR_DISABLE_PATH
   /\ proximity_sensor_disable_exists (vars m) = true)
  \/ (f = MCE_CAM_FOCUS_DISABLE_PATH
      /\ cam_focus_disable_exists (vars m) = true).
Proof.
  revert m; induction ds as [|d rest IH]; intros m Hin; [destruct Hin|].
  destruct (run_cons d rest m) as [Ht _]. rewrite Ht in Hin.
  rewrite control_writes_app in Hin. apply in_app_or in Hin.
  destruct Hin as [Hin|Hin].
  - exact (deliver_gated d m f s Hin).
  - apply IH in Hin. rewrite deliver_vars in Hin. now destruct d.
Qed.

End Runs.

(** A call starts ringing, the lid opens, the lock engages: the last
    proximity command of the run is "0". *)
Lemma proximity_command_tracks_cached_state_witness :
  last_proximity_command
    (emitted
       (@run sample_header
          [Call_state_update sample_environment 1;
           Payload CB_lid_cover "open" 4; Submode_update 2]
          sample_running))
  = Some "0"%string
  /\ proximity_sensor_disable_exists (vars sample_running) = true.
Proof.
  split; [reflexivity|].
  exact (proj1 (@proximity_command_tracks_cached_state sample_header
                  [Call_state_update sample_environment 1;
                   Payload CB_lid_cover "open"%string 4%N; Submode_update 2]
                  sample_running "0"%string eq_refl)).
Defined.

Lemma control_writes_are_gated_witness :
  In (MCE_CAM_FOCUS_DISABLE_PATH, "1"%string)
     (control_writes
        (emitted
           (@run sample_header
              [Call_state_update sample_environment 1; Submode_update 2]
              sample_running)))
  /\ ((MCE_CAM_FOCUS_DISABLE_PATH = MCE_PROXIMITY_SENSOR_DISABLE_PATH
       /\ proximity_sensor_disable_exists (vars sample_running) = true)
      \/ (MCE_CAM_FOCUS_DISABLE_PATH = MCE_CAM_FOCUS_DISABLE_PATH
          /\ cam_focus_disable_exists (vars sample_running) = true)).
Proof.
  assert (Hin : In (MCE_CAM_FOCUS_DISABLE_PATH, "1"%string)
                  (control_writes
                     (emitted
                        (@run sample_header
                           [Call_state_update sample_environment 1;
                            Submode_update 2]
                           sample_running)))) by (right; left; reflexivity).
  split; [exact Hin|].
  exact (@control_writes_are_gated sample_header _ _ _ _ Hin).
Defined.

(** ** More on the translators and on the two proximity triggers *)

Section HandlerFacts.

Context {hdr : mce_h}.

(** X5.  A callback is a function of its payload alone: for every
    callback and payload it returns [FALSE], and the publications it makes
    are the same whatever the byte count it is given and whatever the state
    of the statics and of the datapipes. *)
Theorem callbacks_depend_on_payload_only
  (cb : iomon_callback) (data : string) (n n' : N) (m m' : machine) :
  result (run_callback cb data n m) = false
  /\ emitted (run_callback cb data n m) = emitted (run_callback cb data n' m').
Proof.
  split; [apply run_callback_result|].
  destruct cb; cbn [run_callback];
    rewrite ?lid_cover_trace, ?kbd_slide_trace, ?lens_cover_trace;
    reflexivity.
Qed.

(** X6.  When the sensor file can be read, the synchronous refresh reads it
    and then publishes exactly what the proximity sensor callback publishes
    for the text that was read, leaving the machine in the same state. *)
Theorem refresh_publishes_like_callback
  (env : environment) (m : machine) (tmp : string) (n : N) :
  file_content env MCE_PROXIMITY_SENSOR_STATE_PATH = Some tmp ->
  emitted (update_proximity_sensor_state env m)
  = Ev_read_string_from_file MCE_PROXIMITY_SENSOR_STATE_PATH
    :: emitted (proximity_sensor_iomon_cb tmp n m)
  /\ final (update_proximity_sensor_state env m)
     = final (proximity_sensor_iomon_cb tmp n m).
Proof.
  intros Hread. rewrite update_proximity_sensor_state_run, Hread.
  split; reflexivity.
Qed.

(** X7.  A call state update and an alarm state update commute: delivered
    in either order they leave the same statics, and the second delivery
    sends the same command to the control surface in both orders. *)
Theorem call_and_alarm_updates_commute
  (env1 env2 env3 env4 : environment) (c a : Z) (m : machine) :
  vars (final (alarm_ui_state_trigger env2 a
                 (final (call_state_trigger env1 c m))))
  = vars (final (call_state_trigger env4 c
                   (final (alarm_ui_state_trigger env3 a m))))
  /\ control_writes
       (emitted (alarm_ui_state_trigger env2 a
                   (final (call_state_trigger env1 c m))))
     = control_writes
         (emitted (call_state_trigger env4 c
                     (final (alarm_ui_state_trigger env3 a m)))).
Proof.
  split.
  - now rewrite alarm_ui_state_trigger_vars, !call_state_trigger_vars,
      alarm_ui_state_trigger_vars.
  - rewrite (alarm_ui_state_trigger_run env2), (call_state_trigger_run env4).
    apply update_proximity_monitor_writes_ext; cbn [vars];
      now rewrite alarm_ui_state_trigger_vars, call_state_trigger_vars.
Qed.

End HandlerFacts.

Lemma refresh_publishes_like_callback_witness :
  file_content sample_environment MCE_PROXIMITY_SENSOR_STATE_PATH
  = Some "open"%string
  /\ emitted
       (@update_proximity_sensor_state sample_header sample_environment
          sample_running)
     = Ev_read_string_from_file MCE_PROXIMITY_SENSOR_STATE_PATH
       :: emitted
            (@proximity_sensor_iomon_cb sample_header "open" 4
               sample_running).
Proof.
  split; [reflexivity|].
  exact (proj1 (@refresh_publishes_like_callback sample_header
                  sample_environment sample_running "open"%string 4%N
                  eq_refl)).
Defined.

(** ** The camera-focus interlock outside its usual conditions *)

Section CameraFocusCorners.

Context {hdr : mce_h}.

Lemma deliver_submodes_keeps_focus_state updates :
  forall m,
    cam_focus_disable_exists (vars (final (deliver_submodes updates m)))
    = cam_focus_disable_exists (vars m)
    /\ iomon_id (vars (final (deliver_submodes updates m)))
       = iomon_id (vars m).
Proof. intros m. rewrite deliver_submodes_final. now split. Qed.

(** X8.  Without the camera-focus disable control, no run of submode
    updates writes anything, whatever the lock bit does. *)
Theorem camera_focus_without_control
  (updates : list submode_t) (m : machine) :
  cam_focus_disable_exists (vars m) = false ->
  emitted (deliver_submodes updates m) = [].
Proof.
  revert m; induction updates as [|s rest IH]; intros m Hflag; [reflexivity|].
  destruct (deliver_submodes_cons s rest m) as [-> _].
  rewrite IH by (now rewrite submode_trigger_final).
  rewrite submode_trigger_emitted_general, Hflag.
  now destruct (tklock (old_submode (vars m))); destruct (tklock s).
Qed.

Lemma focus_closed_never_disables updates :
  forall m,
    iomon_id (vars m) cam_focus_iomon_id = NULL ->
    ~ In focus_disable (emitted (deliver_submodes updates m)).
Proof.
  induction updates as [|s rest IH]; intros m Hid; [intros []|].
  destruct (deliver_submodes_cons s rest m) as [-> _].
  intros Hin. apply in_app_or in Hin. destruct Hin as [Hin|Hin].
  - rewrite submode_trigger_emitted_general, Hid in Hin.
    rewrite andb_false_r in Hin.
    destruct (tklock (old_submode (vars m))); destruct (tklock s);
      try destruct (cam_focus_disable_exists (vars m));
      cbn in Hin; try contradiction;
      destruct Hin as [Hin|[]]; discriminate Hin.
  - revert Hin. apply IH. now rewrite submode_trigger_final.
Qed.

(** X9.  With the disable control present but the focus source not open:
    raising the lock bit writes nothing, clearing it still writes "0"; no
    run of updates ever writes "1"; and raising then clearing the lock bit
    sends an enable that no disable preceded. *)
Theorem camera_focus_source_closed (m : machine) :
  cam_focus_disable_exists (vars m) = true ->
  iomon_id (vars m) cam_focus_iomon_id = NULL ->
  (forall s,
      tklock (old_submode (vars m)) = false ->
      emitted (submode_trigger s m) = [])
  /\ (forall s,
         tklock (old_submode (vars m)) = true -> tklock s = false ->
         emitted (submode_trigger s m) = [focus_enable])
  /\ (forall updates,
         ~ In focus_disable (emitted (deliver_submodes updates m)))
  /\ (forall s1 s2,
         tklock (old_submode (vars m)) = false ->
         tklock s1 = true -> tklock s2 = false ->
         emitted (deliver_submodes [s1; s2] m) = [focus_enable]).
Proof.
  intros Hflag Hid.
  split; [|split; [|split]].
  - intros s Ho. rewrite submode_trigger_emitted_general, Ho, Hid, Hflag.
    now destruct (tklock s).
  - intros s Ho Hs. now rewrite submode_trigger_emitted_general, Ho, Hs, Hflag.
  - intros updates. now apply focus_closed_never_disables.
  - intros s1 s2 Ho H1 H2.
    destruct (deliver_submodes_cons s1 [s2] m) as [-> _].
    destruct (deliver_submodes_cons s2 [] (final (submode_trigger s1 m)))
      as [-> _].
    rewrite !submode_trigger_emitted_general, !submode_trigger_final.
    cbn [vars set_old_submode old_submode cam_focus_disable_exists iomon_id].
    now rewrite Ho, H1, H2, Hid, Hflag.
Qed.

Lemma lock_edge_writes_alternate updates :
  forall locked, alternates (negb locked) (lock_edge_writes locked updates).
Proof.
  induction updates as [|s rest IH]; intros locked; [exact I|].
  cbn [lock_edge_writes].
  destruct locked; destruct (tklock s) eqn:Es; rewrite ?Es;
    cbn [negb alternates].
  - apply (IH true).
  - split; [reflexivity|]. apply (IH false).
  - split; [reflexivity|]. apply (IH true).
  - apply (IH false).
Qed.

(** X10.  With the disable control present and the focus source open, the
    commands of any run of submode updates alternate: a disable is always
    followed by an enable and an enable by a disable, and the first command
    is a disable exactly when the lock bit was clear at the start.  The
    control surface is never sent the same command twice in a row. *)
Theorem camera_focus_commands_alternate
  (updates : list submode_t) (m : machine) :
  cam_focus_disable_exists (vars m) = true ->
  iomon_id (vars m) cam_focus_iomon_id <> NULL ->
  alternates (negb (tklock (old_submode (vars m))))
    (emitted (deliver_submodes updates m)).
Proof.
  intros Hflag Hid. rewrite (deliver_submodes_emitted updates m Hflag Hid).
  apply lock_edge_writes_alternate.
Qed.

End CameraFocusCorners.

Lemma camera_focus_without_control_witness :
  cam_focus_disable_exists (vars sample_bare) = false
  /\ emitted (@deliver_submodes sample_header [2; 0; 2] sample_bare) = [].
Proof.
  split; [reflexivity|].
  exact (@camera_focus_without_control sample_header [2; 0; 2] sample_bare
           eq_refl).
Defined.

Lemma camera_focus_source_closed_witness :
  cam_focus_disable_exists (vars sample_focus_closed) = true
  /\ iomon_id (vars sample_focus_closed) cam_focus_iomon_id = NULL
  /\ emitted (@deliver_submodes sample_header [2; 0] sample_focus_closed)
     = [focus_enable].
Proof.
  split; [reflexivity|]. split; [reflexivity|].
  destruct (@camera_focus_source_closed sample_header sample_focus_closed
              eq_refl eq_refl) as (_ & _ & _ & H).
  apply H; reflexivity.
Defined.

Lemma camera_focus_commands_alternate_witness :
  cam_focus_disable_exists (vars sample_running) = true
  /\ iomon_id (vars sample_running) cam_focus_iomon_id <> NULL
  /\ @alternates true
       (emitted
          (@deliver_submodes sample_header [2; 3; 0; 1; 6; 4] sample_running)).
Proof.
  split; [reflexivity|]. split; [discriminate|].
  apply (@camera_focus_commands_alternate sample_header [2; 3; 0; 1; 6; 4]
           sample_running); [reflexivity|discriminate].
Defined.

(** ** Start-up and shutdown together *)

Section Lifecycle.

Context {hdr : mce_h}.

Lemma registered_paths_app t1 t2 :
  registered_paths (t1 ++ t2) = registered_paths t1 ++ registered_paths t2.
Proof.
  induction t1 as [|e t1 IH]; [reflexivity|].
  destruct e; cbn; now rewrite IH.
Qed.

Lemma added_triggers_app t1 t2 :
  added_triggers (t1 ++ t2) = added_triggers t1 ++ added_triggers t2.
Proof.
  induction t1 as [|e t1 IH]; [reflexivity|].
  destruct e; cbn; now rewrite IH.
Qed.

(** Triggers and callbacks leave the registry and the subscriptions
    alone. *)
Lemma handler_events_no_lifecycle t :
  Forall handler_event t ->
  registered_paths t = [] /\ added_triggers t = [].
Proof.
  induction 1 as [|e t He _ [IH1 IH2]]; [now split|].
  destruct e; cbn in He; try contradiction; now split.
Qed.

Lemma mce_switches_exit_run m :
  mce_switches_exit m
  = (tt, m,
     [Ev_remove_output_trigger submode_pipe TRIGGER_submode;
      Ev_remove_input_trigger alarm_ui_state_pipe TRIGGER_alarm_ui_state;
      Ev_remove_input_trigger call_state_pipe TRIGGER_call_state]
     ++ map (fun x => Ev_unregister_io_monitor (iomon_id (vars m) x))
          [bat_cover_iomon_id; mmc_cover_iomon_id; mmc0_cover_iomon_id;
           lens_cover_iomon_id; musb_omap3_usb_cable_iomon_id;
           proximity_sensor_iomon_id; lid_cover_iomon_id;
           cam_launch_iomon_id; cam_focus_iomon_id; kbd_slide_iomon_id;
           lockkey_iomon_id]).
Proof. reflexivity. Qed.

Lemma handles_survive_flags b1 b2 (c : bool) v v' cache x :
  iomon_id v' = iomon_id v ->
  iomon_id
    (vars
       (mk_machine
          (set_cam_focus_disable_exists b1
             (set_proximity_sensor_disable_exists b2
                (if c then set_has_flicker_key true v' else v')))
          cache)) x
  = iomon_id v x.
Proof. intros H. destruct c; cbn; now rewrite H. Qed.

Lemma mce_switches_init_final env m :
  final (mce_switches_init env m)
  = mk_machine
      (set_cam_focus_disable_exists
         (write_access env MCE_CAM_FOCUS_DISABLE_PATH)
         (set_proximity_sensor_disable_exists
            (write_access env MCE_PROXIMITY_SENSOR_DISABLE_PATH)
            (if negb (is_null (monitor_handle env MCE_FLICKER_KEY_STATE_PATH))
             then set_has_flicker_key true
                    (vars (final (update_proximity_monitor env
                                    (registered env m))))
             else vars (final (update_proximity_monitor env
                                 (registered env m))))))
      (cached (final (update_proximity_monitor env (registered env m)))).
Proof. now rewrite mce_switches_init_run. Qed.

Lemma mce_switches_init_handles env m x :
  iomon_id (vars (final (mce_switches_init env m))) x
  = iomon_id (vars (registered env m)) x.
Proof.
  rewrite mce_switches_init_final. apply handles_survive_flags.
  now rewrite update_proximity_monitor_vars.
Qed.

Lemma mce_switches_init_registered_paths env m :
  registered_paths (emitted (mce_switches_init env m))
  = [MCE_FLICKER_KEY_STATE_PATH; MCE_KBD_SLIDE_STATE_PATH;
     MCE_CAM_FOCUS_STATE_PATH; MCE_CAM_LAUNCH_STATE_PATH;
     MCE_LID_COVER_STATE_PATH; MCE_PROXIMITY_SENSOR_STATE_PATH;
     MCE_MUSB_OMAP3_USB_CABLE_STATE_PATH; MCE_LENS_COVER_STATE_PATH;
     MCE_MMC0_COVER_STATE_PATH; MCE_MMC_COVER_STATE_PATH;
     MCE_BATTERY_COVER_STATE_PATH].
Proof.
  assert (Hr : registered_paths registrations
               = [MCE_FLICKER_KEY_STATE_PATH; MCE_KBD_SLIDE_STATE_PATH;
                  MCE_CAM_FOCUS_STATE_PATH; MCE_CAM_LAUNCH_STATE_PATH;
                  MCE_LID_COVER_STATE_PATH; MCE_PROXIMITY_SENSOR_STATE_PATH;
                  MCE_MUSB_OMAP3_USB_CABLE_STATE_PATH;
                  MCE_LENS_COVER_STATE_PATH; MCE_MMC0_COVER_STATE_PATH;
                  MCE_MMC_COVER_STATE_PATH; MCE_BATTERY_COVER_STATE_PATH])
    by reflexivity.
  assert (Hp : registered_paths probes = []) by reflexivity.
  rewrite mce_switches_init_run. unfold emitted at 1. unfold snd.
  rewrite !registered_paths_app, Hr, Hp.
  destruct (handler_events_no_lifecycle _
              (update_proximity_monitor_events env (registered env m)))
    as [-> _].
  now rewrite !app_nil_r.
Qed.

Lemma mce_switches_init_added_triggers env m :
  added_triggers (emitted (mce_switches_init env m))
  = [(true, call_state_pipe, TRIGGER_call_state);
     (true, alarm_ui_state_pipe, TRIGGER_alarm_ui_state);
     (false, submode_pipe, TRIGGER_submode)].
Proof.
  assert (Hr : added_triggers registrations
               = [(true, call_state_pipe, TRIGGER_call_state);
                  (true, alarm_ui_state_pipe, TRIGGER_alarm_ui_state);
                  (false, submode_pipe, TRIGGER_submode)]) by reflexivity.
  assert (Hp : added_triggers probes = []) by reflexivity.
  rewrite mce_switches_init_run. unfold emitted at 1. unfold snd.
  rewrite !added_triggers_app, Hr, Hp.
  destruct (handler_events_no_lifecycle _
              (update_proximity_monitor_events env (registered env m)))
    as [_ ->].
  now rewrite !app_nil_r.
Qed.

Lemma mce_switches_exit_released m :
  released_handles (emitted (mce_switches_exit m))
  = map (iomon_id (vars m))
      [bat_cover_iomon_id; mmc_cover_iomon_id; mmc0_cover_iomon_id;
       lens_cover_iomon_id; musb_omap3_usb_cable_iomon_id;
       proximity_sensor_iomon_id; lid_cover_iomon_id; cam_launch_iomon_id;
       cam_focus_iomon_id; kbd_slide_iomon_id; lockkey_iomon_id].
Proof. reflexivity. Qed.

Lemma mce_switches_exit_removed m :
  removed_triggers (emitted (mce_switches_exit m))
  = [(false, submode_pipe, TRIGGER_submode);
     (true, alarm_ui_state_pipe, TRIGGER_alarm_ui_state);
     (true, call_state_pipe, TRIGGER_call_state)].
Proof. reflexivity. Qed.

Lemma mce_switches_exit_final m : final (mce_switches_exit m) = m.
Proof. reflexivity. Qed.

(** X11.  Shutdown mirrors start-up.  For every outcome of the
    registrations and from every state, [mce_switches_exit] run after
    [mce_switches_init] releases exactly the handles the eleven
    registrations returned, null ones included, in the reverse of the order
    in which the sources were registered, and removes the three triggers in
    the reverse of the order in which they were added, each from the side
    (input or output) it was added on.  It changes neither the statics nor
    the datapipes: the handles it released stay stored. *)
Theorem exit_mirrors_init (env : environment) (m : machine) :
  released_handles
    (emitted (mce_switches_exit (final (mce_switches_init env m))))
  = map (monitor_handle env)
      (rev (registered_paths (emitted (mce_switches_init env m))))
  /\ removed_triggers
       (emitted (mce_switches_exit (final (mce_switches_init env m))))
     = rev (added_triggers (emitted (mce_switches_init env m)))
  /\ final (mce_switches_exit (final (mce_switches_init env m)))
     = final (mce_switches_init env m).
Proof.
  rewrite mce_switches_init_registered_paths, mce_switches_init_added_triggers.
  rewrite mce_switches_exit_released, mce_switches_exit_removed,
    mce_switches_exit_final.
  split; [|split; reflexivity].
  cbn [map rev app]. rewrite !mce_switches_init_handles. reflexivity.
Qed.

(** X12.  The command start-up sends to the proximity control surface is
    decided by the capability flag as it stands when [mce_switches_init] is
    entered, not by the probe made later in the same call: for every
    environment and entry state start-up sends exactly the command a
    recomputation of the interlock on the entry statics sends, hence none
    when the flag is clear, whatever the probe finds. *)
Theorem start_up_command_follows_entry_flag
  (env env' : environment) (m : machine) :
  control_writes (emitted (mce_switches_init env m))
  = control_writes (emitted (update_proximity_monitor env' m))
  /\ (proximity_sensor_disable_exists (vars m) = false ->
      control_writes (emitted (mce_switches_init env m)) = [])
  /\ proximity_sensor_disable_exists (vars (final (mce_switches_init env m)))
     = write_access env MCE_PROXIMITY_SENSOR_DISABLE_PATH.
Proof.
  assert (H : control_writes (emitted (mce_switches_init env m))
              = control_writes (emitted (update_proximity_monitor env' m))).
  { rewrite mce_switches_init_writes.
    now apply update_proximity_monitor_writes_ext. }
  split; [exact H|]. split.
  - intros Hflag. now rewrite H, update_proximity_monitor_writes, Hflag.
  - now rewrite mce_switches_init_run.
Qed.

End Lifecycle.

(** ** When the sensor is read *)

Section SensorReads.

Context {hdr : mce_h}.

Lemma reads_follow_enable_app t1 t2 prev :
  reads_follow_enable prev t1 ->
  (forall q, reads_follow_enable q t2) ->
  reads_follow_enable prev (t1 ++ t2).
Proof.
  revert prev; induction t1 as [|e t1 IH]; intros prev H1 H2; [apply H2|].
  destruct H1 as [He H1]. split; [exact He|]. now apply IH.
Qed.

Lemma update_proximity_monitor_reads env m q :
  reads_follow_enable q (emitted (update_proximity_monitor env m)).
Proof.
  rewrite update_proximity_monitor_run.
  destruct (proximity_sensor_disable_exists (vars m)); [|exact I].
  match goal with |- context [if ?b then _ else _] => destruct b end.
  - rewrite update_proximity_sensor_state_run.
    destruct (file_content env MCE_PROXIMITY_SENSOR_STATE_PATH);
      cbn; repeat split.
  - cbn. repeat split.
Qed.

Lemma deliver_reads d m q :
  reads_follow_enable q (emitted (deliver d m)).
Proof.
  destruct d as [env data|env data|data|cb data n].
  - cbn [deliver]. rewrite call_state_trigger_run.
    apply update_proximity_monitor_reads.
  - cbn [deliver]. rewrite alarm_ui_state_trigger_run.
    apply update_proximity_monitor_reads.
  - cbn [deliver]. rewrite submode_trigger_emitted_general.
    destruct (tklock (old_submode (vars m))); destruct (tklock data);
      try exact I;
      match goal with |- context [if ?b then _ else _] => destruct b end;
      cbn; repeat split.
  - destruct (deliver_payload cb data n m) as [-> _].
    destruct cb; cbn [run_callback];
      rewrite ?lid_cover_trace, ?kbd_slide_trace, ?lens_cover_trace,
        ?proximity_sensor_trace, ?usb_cable_trace,
        ?camera_launch_button_trace, ?lockkey_trace, ?generic_activity_trace;
      try match goal with
          | |- context [if matches ?d ?l then [_; _] else _] =>
              destruct (matches d l)
          end;
      cbn; repeat split.
Qed.

(** X13.  The proximity sensor is read only right after it has been
    enabled: in every run of triggers and callbacks, from every state, each
    read of a file is immediately preceded by the write of "0" to the
    proximity control surface.  In particular no run reads the sensor when
    the control surface is absent or when the interlock disables it. *)
Theorem sensor_is_read_only_after_enable
  (ds : list delivery) (m : machine) (prev : option event) :
  reads_follow_enable prev (emitted (run ds m)).
Proof.
  revert m prev; induction ds as [|d rest IH]; intros m prev; [exact I|].
  destruct (run_cons d rest m) as [-> _].
  apply reads_follow_enable_app; [apply deliver_reads|].
  intros q. apply IH.
Qed.

End SensorReads.
